(** * secrets.py: secret providers and their chaining

    A shallow embedding of [src/secrets.py] and the properties of its
    providers ([EnvironmentVariable], [Base64EncodedSecret],
    [FileSystemSecret], [AWSSecretsManagerSecret]) and of [ChainedSecret].

    Python objects live in a store of instance dictionaries; every method is
    a state transformer over a [World] that also holds the process
    environment, the file system, the AWS collaborator and a log of calls.
    The two standard-library codecs the module calls ([base64.b64decode] and
    [bytes.decode]) are written out on bytes. *)

From Stdlib Require Import ZArith Lia String Ascii Bool.
From stdpp Require Import base option list strings gmap.

Local Open Scope Z_scope.
Set Warnings "-register-all".

(* ===================================================================== *)
(** ** Python strings and bytes *)
(* ===================================================================== *)

(** A Python [str] is a sequence of code points, a [bytes] object a sequence
    of octets; both carry their numbers as [Z]. *)
Definition str := list Z.
Definition bytes := list Z.

(** The [str] of an ASCII literal of the source. *)
Definition lit (s : string) : str :=
  map (fun a => Z.of_nat (nat_of_ascii a)) (list_ascii_of_string s).

Definition is_byte (b : Z) : Prop := 0 <= b < 256.

(** Unicode scalar values: what [str.encode] accepts. *)
Definition is_scalar (c : Z) : Prop :=
  0 <= c < 55296 \/ 57344 <= c < 1114112.

(* --------------------------------------------------------------------- *)
(** *** UTF-8: [str.encode()] and [bytes.decode()] *)

Definition utf8_encode_char (c : Z) : option bytes :=
  if c <? 0 then None
  else if c <? 128 then Some [c]
  else if c <? 2048 then
    Some [Z.lor 192 (Z.shiftr c 6); Z.lor 128 (Z.land c 63)]
  else if c <? 65536 then
    if (55296 <=? c) && (c <? 57344) then None
    else Some [Z.lor 224 (Z.shiftr c 12);
               Z.lor 128 (Z.land (Z.shiftr c 6) 63);
               Z.lor 128 (Z.land c 63)]
  else if c <? 1114112 then
    Some [Z.lor 240 (Z.shiftr c 18);
          Z.lor 128 (Z.land (Z.shiftr c 12) 63);
          Z.lor 128 (Z.land (Z.shiftr c 6) 63);
          Z.lor 128 (Z.land c 63)]
  else None.

(** [S.encode()]; [None] stands for [UnicodeEncodeError]. *)
Fixpoint utf8_encode (s : str) : option bytes :=
  match s with
  | [] => Some []
  | c :: s' =>
      match utf8_encode_char c, utf8_encode s' with
      | Some bs, Some bs' => Some (bs ++ bs')
      | _, _ => None
      end
  end.

Definition in_range (lo hi b : Z) : bool := (lo <=? b) && (b <=? hi).

Definition is_continuation (b : Z) : bool := in_range 128 191 b.

Definition cont_bits (b : Z) : Z := Z.land b 63.

(** [bytes.decode()] with the default codec and [errors='strict']: shortest
    forms only, no surrogates, nothing above U+10FFFF.  [None] stands for
    [UnicodeDecodeError]. *)
Fixpoint utf8_decode (bs : bytes) : option str :=
  match bs with
  | [] => Some []
  | b0 :: r0 =>
      if in_range 0 127 b0 then cons b0 <$> utf8_decode r0
      else if in_range 194 223 b0 then
        match r0 with
        | b1 :: r1 =>
            if is_continuation b1 then
              cons (Z.lor (Z.shiftl (Z.land b0 31) 6) (cont_bits b1))
                <$> utf8_decode r1
            else None
        | _ => None
        end
      else if in_range 224 239 b0 then
        match r0 with
        | b1 :: b2 :: r2 =>
            if in_range (if b0 =? 224 then 160 else 128)
                        (if b0 =? 237 then 159 else 191) b1
               && is_continuation b2 then
              cons (Z.lor (Z.shiftl (Z.land b0 15) 12)
                      (Z.lor (Z.shiftl (cont_bits b1) 6) (cont_bits b2)))
                <$> utf8_decode r2
            else None
        | _ => None
        end
      else if in_range 240 244 b0 then
        match r0 with
        | b1 :: b2 :: b3 :: r3 =>
            if in_range (if b0 =? 240 then 144 else 128)
                        (if b0 =? 244 then 143 else 191) b1
               && is_continuation b2 && is_continuation b3 then
              cons (Z.lor (Z.shiftl (Z.land b0 7) 18)
                      (Z.lor (Z.shiftl (cont_bits b1) 12)
                         (Z.lor (Z.shiftl (cont_bits b2) 6) (cont_bits b3))))
                <$> utf8_decode r3
            else None
        | _ => None
        end
      else None
  end.

(* --------------------------------------------------------------------- *)
(** *** Base64: [base64.b64encode] and [binascii.a2b_base64] *)

Definition BASE64_PAD : Z := 61.

(** The standard alphabet, by index. *)
Definition table_b2a_base64 (i : Z) : Z :=
  if i <? 26 then 65 + i
  else if i <? 52 then 97 + (i - 26)
  else if i <? 62 then 48 + (i - 52)
  else if i =? 62 then 43
  else 47.

(** The inverse table; 255 marks a character outside the alphabet. *)
Definition table_a2b_base64 (c : Z) : Z :=
  if in_range 65 90 c then c - 65
  else if in_range 97 122 c then c - 97 + 26
  else if in_range 48 57 c then c - 48 + 52
  else if c =? 43 then 62
  else if c =? 47 then 63
  else 255.

(** [base64.b64encode]: three octets become four characters, the last
    group is padded with [=]. *)
Fixpoint b64encode (bs : bytes) : bytes :=
  match bs with
  | [] => []
  | [a] =>
      [table_b2a_base64 (Z.shiftr a 2);
       table_b2a_base64 (Z.shiftl (Z.land a 3) 4);
       BASE64_PAD; BASE64_PAD]
  | [a; b] =>
      [table_b2a_base64 (Z.shiftr a 2);
       table_b2a_base64 (Z.lor (Z.shiftl (Z.land a 3) 4) (Z.shiftr b 4));
       table_b2a_base64 (Z.shiftl (Z.land b 15) 2);
       BASE64_PAD]
  | a :: b :: c :: rest =>
      table_b2a_base64 (Z.shiftr a 2)
      :: table_b2a_base64 (Z.lor (Z.shiftl (Z.land a 3) 4) (Z.shiftr b 4))
      :: table_b2a_base64 (Z.lor (Z.shiftl (Z.land b 15) 2) (Z.shiftr c 6))
      :: table_b2a_base64 (Z.land c 63)
      :: b64encode rest
  end.

Inductive b64_error :=
| Incorrect_padding
| Invalid_length.

(** The decoding loop of [binascii.a2b_base64] without [strict_mode]:
    characters outside the alphabet are skipped, a pad sequence that
    completes a quad ends the input, and the octets are written through an
    [unsigned char]. *)
Fixpoint a2b_base64_loop (ascii_data : bytes) (quad_pos : Z) (leftchar : Z)
    (pads : Z) (bin_data : bytes) : b64_error + bytes :=
  match ascii_data with
  | [] =>
      if quad_pos =? 0 then inr bin_data
      else if quad_pos =? 1 then inl Invalid_length
      else inl Incorrect_padding
  | this_ch :: rest =>
      if this_ch =? BASE64_PAD then
        if 2 <=? quad_pos then
          if 4 <=? quad_pos + (pads + 1) then inr bin_data
          else a2b_base64_loop rest quad_pos leftchar (pads + 1) bin_data
        else a2b_base64_loop rest quad_pos leftchar pads bin_data
      else
        let this_ch := table_a2b_base64 this_ch in
        if 64 <=? this_ch then
          a2b_base64_loop rest quad_pos leftchar pads bin_data
        else if quad_pos =? 0 then
          a2b_base64_loop rest 1 this_ch 0 bin_data
        else if quad_pos =? 1 then
          a2b_base64_loop rest 2 (Z.land this_ch 15) 0
            (bin_data ++
               [Z.land (Z.lor (Z.shiftl leftchar 2) (Z.shiftr this_ch 4)) 255])
        else if quad_pos =? 2 then
          a2b_base64_loop rest 3 (Z.land this_ch 3) 0
            (bin_data ++
               [Z.land (Z.lor (Z.shiftl leftchar 4) (Z.shiftr this_ch 2)) 255])
        else
          a2b_base64_loop rest 0 0 0
            (bin_data ++ [Z.land (Z.lor (Z.shiftl leftchar 6) this_ch) 255])
  end.

Definition a2b_base64 (data : bytes) : b64_error + bytes :=
  a2b_base64_loop data 0 0 0 [].

(* --------------------------------------------------------------------- *)
(** *** The file-system encoding: UTF-8 with [surrogateescape] *)

(** [os.environ] encodes names and decodes values with
    [sys.getfilesystemencoding()] (UTF-8 on POSIX) and the error handler
    [surrogateescape]: a byte that is not part of a well-formed sequence is
    decoded to the lone surrogate U+DC00 + byte, and only those surrogates,
    U+DC80 to U+DCFF, can be encoded back. *)
Definition escape (b : Z) : Z := 56320 + b.

Definition encode_surrogateescape_char (c : Z) : option bytes :=
  if in_range 56448 56575 c then Some [c - 56320]
  else utf8_encode_char c.

(** [s.encode('utf-8', 'surrogateescape')]; [None] stands for
    [UnicodeEncodeError]. *)
Fixpoint encode_surrogateescape (s : str) : option bytes :=
  match s with
  | [] => Some []
  | c :: s' =>
      match encode_surrogateescape_char c, encode_surrogateescape s' with
      | Some bs, Some bs' => Some (bs ++ bs')
      | _, _ => None
      end
  end.

(** [b.decode('utf-8', 'surrogateescape')]: the strict decoder, but where
    it would fail the byte at hand is escaped and decoding goes on with the
    next byte. *)
Fixpoint decode_surrogateescape (bs : bytes) : str :=
  match bs with
  | [] => []
  | b0 :: r0 =>
      if in_range 0 127 b0 then b0 :: decode_surrogateescape r0
      else if in_range 194 223 b0 then
        match r0 with
        | b1 :: r1 =>
            if is_continuation b1 then
              Z.lor (Z.shiftl (Z.land b0 31) 6) (cont_bits b1)
              :: decode_surrogateescape r1
            else escape b0 :: decode_surrogateescape r0
        | _ => escape b0 :: decode_surrogateescape r0
        end
      else if in_range 224 239 b0 then
        match r0 with
        | b1 :: b2 :: r2 =>
            if in_range (if b0 =? 224 then 160 else 128)
                        (if b0 =? 237 then 159 else 191) b1
               && is_continuation b2 then
              Z.lor (Z.shiftl (Z.land b0 15) 12)
                (Z.lor (Z.shiftl (cont_bits b1) 6) (cont_bits b2))
              :: decode_surrogateescape r2
            else escape b0 :: decode_surrogateescape r0
        | _ => escape b0 :: decode_surrogateescape r0
        end
      else if in_range 240 244 b0 then
        match r0 with
        | b1 :: b2 :: b3 :: r3 =>
            if in_range (if b0 =? 240 then 144 else 128)
                        (if b0 =? 244 then 143 else 191) b1
               && is_continuation b2 && is_continuation b3 then
              Z.lor (Z.shiftl (Z.land b0 7) 18)
                (Z.lor (Z.shiftl (cont_bits b1) 12)
                   (Z.lor (Z.shiftl (cont_bits b2) 6) (cont_bits b3)))
              :: decode_surrogateescape r3
            else escape b0 :: decode_surrogateescape r0
        | _ => escape b0 :: decode_surrogateescape r0
        end
      else escape b0 :: decode_surrogateescape r0
  end.

(** The byte strings of the operating system are [string]s; [lit] reads
    one as numbers and [string_of_bytes] writes one. *)
Definition string_of_bytes (bs : bytes) : string :=
  string_of_list_ascii (map (fun b => ascii_of_nat (Z.to_nat b)) bs).

(** [os.fsencode] and [os.fsdecode]. *)
Definition os_fsencode (s : str) : option string :=
  string_of_bytes <$> encode_surrogateescape s.

Definition os_fsdecode (b : string) : str :=
  decode_surrogateescape (lit b).

(** [os.environ]: [_data] holds the environment of the process, names and
    values as bytes.  Looking a [str] up is [os.environ.get]: the name is
    encoded, found or not in [_data], and the value decoded; a name that
    cannot be encoded is in no environment. *)
Record Environ := { _data : gmap string string }.

#[global] Instance Environ_lookup : Lookup str str Environ :=
  fun key env =>
    match os_fsencode key with
    | Some name => os_fsdecode <$> (_data env !! name)
    | None => None
    end.

(* ===================================================================== *)
(** ** Python values, exceptions and the world *)
(* ===================================================================== *)

Definition addr := nat.

(** The classes of the module. *)
Inductive class :=
| BaseSecret
| AWSSecretsManagerSecret
| EnvironmentVariable
| Base64EncodedSecret
| FileSystemSecret
| ChainedSecret.

Definition class_name (c : class) : string :=
  match c with
  | BaseSecret => "BaseSecret"
  | AWSSecretsManagerSecret => "AWSSecretsManagerSecret"
  | EnvironmentVariable => "EnvironmentVariable"
  | Base64EncodedSecret => "Base64EncodedSecret"
  | FileSystemSecret => "FileSystemSecret"
  | ChainedSecret => "ChainedSecret"
  end.

(** The values the module handles.  [VRef] is a reference to an instance of
    one of the classes above, [VClass] a class object (callable: it
    constructs), [VFunc] a function defined by the caller, [VClient] a
    secrets-manager client handle and [VResponse] what its
    [get_secret_value] answers, reduced to its ["SecretString"] entry. *)
Inductive pyval :=
| VNone
| VInt (n : Z)
| VStr (s : str)
| VBytes (b : bytes)
| VTuple (items : list pyval)
| VRef (a : addr)
| VClass (c : class)
| VFunc (f : nat)
| VModule_boto3
| VClient (h : nat)
| VResponse (SecretString : option str).

Inductive exn :=
| AttributeError (type_name attr : string)
| UnboundLocalError (name : string)
| TypeError
| ValueError
| IndexError
| KeyError
| NotImplementedError
| ModuleNotFoundError
| ReferenceError
| Undefined (name : pyval)
| binascii_Error (e : b64_error)
| UnicodeDecodeError
| UnicodeEncodeError
| External (code : nat).

(** An instance: its class and its [__dict__]. *)
Record object := { ob_class : class; ob_dict : gmap string pyval }.

Inductive event :=
| Call_get_value (self : addr)
| Call_boto3_client (h : nat)
| Call_get_secret_value (h : nat) (SecretId : pyval).

(** The state a call runs in.  [heap] holds the instances, [environ] is
    [os.environ]; [open_read] answers [open(path, "r")] followed by
    [f.read()]; [boto3_installed], [boto3_client] and [secretsmanager]
    answer for the AWS collaborator, [clients] counts the client handles
    made so far.  [log] records calls in order, latest first. *)
Record World := {
  heap : list object;
  environ : Environ;
  open_read : pyval -> exn + str;
  boto3_installed : bool;
  boto3_client : option exn;
  secretsmanager : pyval -> exn + option str;
  clients : nat;
  log : list event
}.

Definition set_heap (h : list object) (w : World) : World :=
  {| heap := h; environ := environ w; open_read := open_read w;
     boto3_installed := boto3_installed w; boto3_client := boto3_client w;
     secretsmanager := secretsmanager w; clients := clients w; log := log w |}.

Definition set_clients (n : nat) (w : World) : World :=
  {| heap := heap w; environ := environ w; open_read := open_read w;
     boto3_installed := boto3_installed w; boto3_client := boto3_client w;
     secretsmanager := secretsmanager w; clients := n; log := log w |}.

Definition set_log (l : list event) (w : World) : World :=
  {| heap := heap w; environ := environ w; open_read := open_read w;
     boto3_installed := boto3_installed w; boto3_client := boto3_client w;
     secretsmanager := secretsmanager w; clients := clients w; log := l |}.

(* --------------------------------------------------------------------- *)
(** *** The monad of calls: state and exceptions *)

Inductive result (A : Type) :=
| Ret (a : A)
| Raise (e : exn)
| OutOfFuel.
Arguments Ret {A} a.
Arguments Raise {A} e.
Arguments OutOfFuel {A}.

Definition M (A : Type) : Type := World -> result A * World.

Definition ret {A} (a : A) : M A := fun w => (Ret a, w).
Definition raise {A} (e : exn) : M A := fun w => (Raise e, w).
Definition out_of_fuel {A} : M A := fun w => (OutOfFuel, w).

Definition bind {A B} (m : M A) (k : A -> M B) : M B := fun w =>
  match m w with
  | (Ret a, w') => k a w'
  | (Raise e, w') => (Raise e, w')
  | (OutOfFuel, w') => (OutOfFuel, w')
  end.

Notation "'let!' x ':=' m 'in' k" := (bind m (fun x => k))
  (at level 10, x name, m at level 100, k at level 200).
Notation "'run!' m 'in' k" := (bind m (fun _ => k))
  (at level 10, m at level 100, k at level 200).

Definition record_call (e : event) : M unit := fun w =>
  (Ret tt, set_log (e :: log w) w).

(* --------------------------------------------------------------------- *)
(** *** Instances and their attributes *)

(** [object.__new__(cls)]: a fresh instance with an empty [__dict__]. *)
Definition object_new (c : class) : M addr := fun w =>
  (Ret (length (heap w)),
   set_heap (heap w ++ [{| ob_class := c; ob_dict := ∅ |}]) w).

Definition deref (a : addr) : M object := fun w =>
  match heap w !! a with
  | Some o => (Ret o, w)
  | None => (Raise ReferenceError, w)
  end.

(** The names each class defines in its body, own and inherited. *)
Definition class_attrs (c : class) : list string :=
  match c with
  | BaseSecret => []
  | AWSSecretsManagerSecret => ["__init__"; "get_value"; "client"; "get_client"]
  | EnvironmentVariable => ["Undefined"; "__init__"; "get_value"]
  | Base64EncodedSecret => ["__init__"; "get_value"]
  | FileSystemSecret => ["__init__"; "get_value"]
  | ChainedSecret => ["__init__"; "get_value"]
  end ++ ["get_value"; "value"; "__str__"].

(** [o] once [name] is bound to [v] in its [__dict__]. *)
Definition with_attr (name : string) (v : pyval) (o : object) : object :=
  {| ob_class := ob_class o; ob_dict := <[name := v]> (ob_dict o) |}.

(** An [AWSSecretsManagerSecret] at [self] whose [__init__] has run, with
    what its [__dict__] holds for [client]. *)
Definition initialised (self : addr) (secret_id : pyval) (w : World)
    (client : option pyval) : Prop :=
  exists o,
    heap w !! self = Some o /\
    ob_class o = AWSSecretsManagerSecret /\
    ob_dict o !! "secret_id" = Some secret_id /\
    ob_dict o !! "boto3" = Some VModule_boto3 /\
    ob_dict o !! "client" = client.

(** The log after [n] accesses that found the client of handle [h] in the
    [__dict__], on top of [base]: each one called [get_value], then
    [get_secret_value] on [h]. *)
Fixpoint cached_accesses (self : addr) (h : nat) (secret_id : pyval)
    (n : nat) (base : list event) : list event :=
  match n with
  | O => base
  | S n =>
      Call_get_secret_value h secret_id :: Call_get_value self
      :: cached_accesses self h secret_id n base
  end.

(** The log after [n] accesses in which [boto3.client] raised. *)
Fixpoint refused_accesses (self : addr) (n : nat) (base : list event)
  : list event :=
  match n with
  | O => base
  | S n => Call_get_value self :: refused_accesses self n base
  end.

(** The world once an instance of [c] with [__dict__] [d] is allocated. *)
Definition allocate (c : class) (d : gmap string pyval) (w : World) : World :=
  set_heap (heap w ++ [{| ob_class := c; ob_dict := d |}]) w.

(** [self.name] for a name that no class defines: the instance [__dict__]
    decides, and a miss is an [AttributeError]. *)
Definition load_attr (self : addr) (name : string) : M pyval :=
  let! o := deref self in
  match ob_dict o !! name with
  | Some v => ret v
  | None => raise (AttributeError (class_name (ob_class o)) name)
  end.

(** [self.name = v]. *)
Definition store_attr (self : addr) (name : string) (v : pyval) : M unit :=
  let! o := deref self in
  fun w => (Ret tt, set_heap (<[self := with_attr name v o]> (heap w)) w).

(* --------------------------------------------------------------------- *)
(** *** Built-ins and collaborators *)

(** [isinstance(v, str)] and [isinstance(v, bytes)]. *)
Definition isinstance_str (v : pyval) : bool :=
  match v with VStr _ => true | _ => false end.

Definition isinstance_bytes (v : pyval) : bool :=
  match v with VBytes _ => true | _ => false end.

(** [isinstance(v, BaseSecret)]: every instance in the store is of a class
    of the module, and each of them derives from [BaseSecret]. *)
Definition isinstance_BaseSecret (v : pyval) : bool :=
  match v with VRef _ => true | _ => false end.

(** [callable(v)]: classes and functions; no class of the module defines
    [__call__]. *)
Definition callable (v : pyval) : bool :=
  match v with VClass _ | VFunc _ => true | _ => false end.

(** [list(v)]. *)
Definition builtin_list (v : pyval) : M (list pyval) :=
  match v with
  | VTuple items => ret items
  | VStr s => ret (map (fun c => VStr [c]) s)
  | VBytes b => ret (map VInt b)
  | _ => raise TypeError
  end.

(** [os.getenv(key)]: [os.environ.get(key)].  The key must be a [str]
    and is encoded first, which raises for a key that cannot be; the
    encoded name is looked up in [_data], a miss gives [None], and the
    value found is decoded. *)
Definition os_getenv (key : pyval) : M pyval := fun w =>
  match key with
  | VStr k =>
      match os_fsencode k with
      | Some name =>
          (Ret (match _data (environ w) !! name with
                | Some v => VStr (os_fsdecode v)
                | None => VNone
                end), w)
      | None => (Raise UnicodeEncodeError, w)
      end
  | _ => (Raise TypeError, w)
  end.

(** [base64.b64decode(s)]: a [str] must be ASCII and is taken as its bytes;
    the result is always [bytes]. *)
Definition base64_b64decode (s : pyval) : M pyval :=
  let a2b (data : bytes) : M pyval :=
    match a2b_base64 data with
    | inr b => ret (VBytes b)
    | inl e => raise (binascii_Error e)
    end in
  match s with
  | VStr s => if forallb (in_range 0 127) s then a2b s else raise ValueError
  | VBytes b => a2b b
  | _ => raise TypeError
  end.

(** [decoded.decode()]. *)
Definition bytes_decode (v : pyval) : M pyval :=
  match v with
  | VBytes b =>
      match utf8_decode b with
      | Some s => ret (VStr s)
      | None => raise UnicodeDecodeError
      end
  | _ => raise (AttributeError "object" "decode")
  end.

(** [with open(path, "r") as f: value = f.read()]. *)
Definition open_and_read (path : pyval) : M pyval := fun w =>
  match open_read w path with
  | inr s => (Ret (VStr s), w)
  | inl e => (Raise e, w)
  end.

(** [import boto3]. *)
Definition import_boto3 : M pyval := fun w =>
  if boto3_installed w then (Ret VModule_boto3, w)
  else (Raise ModuleNotFoundError, w).

(** [module.client("secretsmanager")]: a handle that did not exist
    before. *)
Definition boto3_client_call (module : pyval) : M pyval :=
  match module with
  | VModule_boto3 => fun w =>
      match boto3_client w with
      | Some e => (Raise e, w)
      | None =>
          let h := clients w in
          (Ret (VClient h),
           set_log (Call_boto3_client h :: log w) (set_clients (S h) w))
      end
  | _ => raise (AttributeError "object" "client")
  end.

(** [client.get_secret_value(SecretId=secret_id)]. *)
Definition client_get_secret_value (client secret_id : pyval) : M pyval :=
  match client with
  | VClient h => fun w =>
      let w' := set_log (Call_get_secret_value h secret_id :: log w) w in
      match secretsmanager w secret_id with
      | inr r => (Ret (VResponse r), w')
      | inl e => (Raise e, w')
      end
  | _ => raise (AttributeError "object" "get_secret_value")
  end.

(** [response["SecretString"]]. *)
Definition subscript_SecretString (response : pyval) : M pyval :=
  match response with
  | VResponse (Some s) => ret (VStr s)
  | VResponse None => raise KeyError
  | _ => raise TypeError
  end.

(** Reading a local variable that may not have been assigned. *)
Definition load_local (name : string) (v : option pyval) : M pyval :=
  match v with
  | Some v => ret v
  | None => raise (UnboundLocalError name)
  end.

(* ===================================================================== *)
(** ** The classes of [secrets.py] *)
(* ===================================================================== *)

Section Secrets.

(** What calling a function of the caller (a [VFunc] step of a chain) does,
    and the display string of a value that is not a [str]. *)
Variable call_function : nat -> pyval -> M pyval.
Variable object_repr : pyval -> str.

(** [str(v)]. *)
Definition builtin_str (v : pyval) : pyval :=
  match v with
  | VStr s => VStr s
  | _ => VStr (object_repr v)
  end.

(* --------------------------------------------------------------------- *)
(** *** [BaseSecret] *)

Definition BaseSecret_get_value (self : addr) : M pyval :=
  raise NotImplementedError.

(* --------------------------------------------------------------------- *)
(** *** [AWSSecretsManagerSecret] *)

Definition AWSSecretsManagerSecret_init (self : addr) (args : list pyval)
  : M unit :=
  match args with
  | [secret_id] =>
      run! store_attr self "secret_id" secret_id in
      let! boto3 := import_boto3 in
      store_attr self "boto3" boto3
  | _ => raise TypeError
  end.

Definition AWSSecretsManagerSecret_get_client (self : addr) : M pyval :=
  let! boto3 := load_attr self "boto3" in
  boto3_client_call boto3.

(** [client] is a [cached_property]: the instance [__dict__] is asked
    first, and the value [get_client] returns is stored there. *)
Definition AWSSecretsManagerSecret_client (self : addr) : M pyval :=
  let! o := deref self in
  match ob_dict o !! "client" with
  | Some val => ret val
  | None =>
      let! val := AWSSecretsManagerSecret_get_client self in
      run! store_attr self "client" val in
      ret val
  end.

Definition AWSSecretsManagerSecret_get_value (self : addr) : M pyval :=
  let! client := AWSSecretsManagerSecret_client self in
  let! secret_id := load_attr self "secret_id" in
  let! response := client_get_secret_value client secret_id in
  subscript_SecretString response.

(* --------------------------------------------------------------------- *)
(** *** [EnvironmentVariable] *)

Definition EnvironmentVariable_init (self : addr) (args : list pyval)
  : M unit :=
  match args with
  | [name] => store_attr self "name" name
  | _ => raise TypeError
  end.

Definition EnvironmentVariable_get_value (self : addr) : M pyval :=
  let! name := load_attr self "name" in
  let! value := os_getenv name in
  match value with
  | VNone =>
      let! name := load_attr self "name" in
      raise (Undefined name)
  | _ => ret value
  end.

(* --------------------------------------------------------------------- *)
(** *** [Base64EncodedSecret] *)

Definition Base64EncodedSecret_init (self : addr) (args : list pyval)
  : M unit :=
  match args with
  | [encoded] => store_attr self "encoded" encoded
  | _ => raise TypeError
  end.

Definition Base64EncodedSecret_get_value (self : addr) : M pyval :=
  let! encoded := load_attr self "encoded" in
  let! decoded := base64_b64decode encoded in
  if isinstance_bytes decoded then bytes_decode decoded
  else ret decoded.

(* --------------------------------------------------------------------- *)
(** *** [FileSystemSecret] *)

Definition FileSystemSecret_init (self : addr) (args : list pyval)
  : M unit :=
  match args with
  | [path] => store_attr self "path" path
  | _ => raise TypeError
  end.

Definition FileSystemSecret_get_value (self : addr) : M pyval :=
  let! path := load_attr self "path" in
  open_and_read path.

(* --------------------------------------------------------------------- *)
(** *** [ChainedSecret] *)

(** [__init__(self, *secrets)]: the steps are stored as they come, whatever
    their number. *)
Definition ChainedSecret_init (self : addr) (secrets : list pyval)
  : M unit :=
  store_attr self "secrets" (VTuple secrets).

(** Calling the class [c]: [__new__], then [__init__] on the arguments.
    [BaseSecret] is abstract. *)
Definition new (c : class) (args : list pyval) : M addr :=
  match c with
  | BaseSecret => raise TypeError
  | _ =>
      let! self := object_new c in
      run! match c with
           | AWSSecretsManagerSecret => AWSSecretsManagerSecret_init self args
           | EnvironmentVariable => EnvironmentVariable_init self args
           | Base64EncodedSecret => Base64EncodedSecret_init self args
           | FileSystemSecret => FileSystemSecret_init self args
           | _ => ChainedSecret_init self args
           end in
      ret self
  end.

(** [secret(value)] for a callable step. *)
Definition call (secret value : pyval) : M pyval :=
  match secret with
  | VClass c => let! self := new c [value] in ret (VRef self)
  | VFunc f => call_function f value
  | _ => raise TypeError
  end.

Section Chain.

(** [secret.get_value()], whatever [secret] is bound to; the dispatch over
    the classes is tied below. *)
Variable method_get_value : pyval -> M pyval.

(** The [while secrets:] loop; [value] may still be unassigned. *)
Fixpoint ChainedSecret_loop (secrets : list pyval) (value : option pyval)
  : M (option pyval) :=
  match secrets with
  | [] => ret value
  | secret :: secrets =>
      if isinstance_BaseSecret secret then
        let! value := method_get_value secret in
        ChainedSecret_loop secrets (Some value)
      else if callable secret then
        let! value := load_local "value" value in
        let! secret := call secret value in
        let! value := method_get_value secret in
        ChainedSecret_loop secrets (Some value)
      else ChainedSecret_loop secrets value
  end.

(** The body of [get_value] once [secrets] is a list. *)
Definition ChainedSecret_resolve (secrets : list pyval) : M pyval :=
  match secrets with
  | [] => raise IndexError
  | secret :: secrets =>
      let! value :=
        if isinstance_BaseSecret secret then
          let! value := method_get_value secret in ret (Some value)
        else if isinstance_str secret then ret (Some secret)
        else ret None in
      let! value := ChainedSecret_loop secrets value in
      load_local "value" value
  end.

Definition ChainedSecret_get_value (self : addr) : M pyval :=
  let! secret := load_attr self "secret" in
  let! secrets := builtin_list secret in
  ChainedSecret_resolve secrets.

End Chain.

(* --------------------------------------------------------------------- *)
(** *** Method dispatch *)

Definition type_name (v : pyval) : string :=
  match v with
  | VNone => "NoneType"
  | VInt _ => "int"
  | VStr _ => "str"
  | VBytes _ => "bytes"
  | VTuple _ => "tuple"
  | VRef _ => "object"
  | VClass _ => "type"
  | VFunc _ => "function"
  | VModule_boto3 => "module"
  | VClient _ => "SecretsManager"
  | VResponse _ => "dict"
  end.

(** [v.get_value()] given what it does on an instance. *)
Definition method_get_value (on_instance : addr -> M pyval) (v : pyval)
  : M pyval :=
  match v with
  | VRef a => on_instance a
  | VClass _ => raise TypeError
  | _ => raise (AttributeError (type_name v) "get_value")
  end.

(** [self.get_value()], dispatched on the class of [self].  Each nested
    call takes one unit of [fuel]; every call is recorded in the log. *)
Fixpoint get_value (fuel : nat) (self : addr) : M pyval :=
  match fuel with
  | O => out_of_fuel
  | S fuel =>
      run! record_call (Call_get_value self) in
      let! o := deref self in
      match ob_class o with
      | BaseSecret => BaseSecret_get_value self
      | AWSSecretsManagerSecret => AWSSecretsManagerSecret_get_value self
      | EnvironmentVariable => EnvironmentVariable_get_value self
      | Base64EncodedSecret => Base64EncodedSecret_get_value self
      | FileSystemSecret => FileSystemSecret_get_value self
      | ChainedSecret =>
          ChainedSecret_get_value (method_get_value (get_value fuel)) self
      end
  end.

(** The [value] property and [__str__] of [BaseSecret]. *)
Definition value (fuel : nat) (self : addr) : M pyval :=
  let! value := get_value fuel self in
  ret value.

Definition __str__ (fuel : nat) (self : addr) : M pyval :=
  let! v := value fuel self in
  ret (builtin_str v).

(** The module-level [password]. *)
Definition password : M addr :=
  let! admin := new EnvironmentVariable [VStr (lit "ADMIN_PASSWORD")] in
  new ChainedSecret [VRef admin; VClass Base64EncodedSecret].

(** [n] accesses to [self.value] in a row, whatever each returns or
    raises. *)
Fixpoint value_times (fuel n : nat) (self : addr) (w : World) : World :=
  match n with
  | O => w
  | S n => value_times fuel n self (snd (value fuel self w))
  end.

End Secrets.

(** [base64.b64encode(S.encode()).decode()]: the base64 text of a [str]. *)
Definition base64_encode (S : str) : option str :=
  b64encode <$> utf8_encode S.

(* --------------------------------------------------------------------- *)
(** *** A concrete world *)

(** No functions of the caller, no display strings. *)
Definition no_functions : nat -> pyval -> M pyval := fun _ _ => raise TypeError.
Definition no_repr : pyval -> str := fun _ => [].

(** [ADMIN_PASSWORD] holds the base64 text of ["s3cr3t"]; the secrets
    manager knows one secret; no file can be read. *)
Definition world0 : World :=
  {| heap := [];
     environ := {| _data := {[ "ADMIN_PASSWORD" := "czNjcjN0" ]} |};
     open_read := fun _ => inl (External 2);
     boto3_installed := true;
     boto3_client := None;
     secretsmanager := fun id =>
       match id with
       | VStr [112; 119] => inr (Some (lit "hunter2"))
       | _ => inl (External 404)
       end;
     clients := 0;
     log := [] |}.

(* --------------------------------------------------------------------- *)
(** *** Results that are [str] *)

(** Whenever [m] returns, it returns a [str]. *)
Definition returns_str (m : M pyval) : Prop :=
  forall w v w', m w = (Ret v, w') -> isinstance_str v = true.

(** The local [value] of [ChainedSecret.get_value] is unassigned or a
    [str]. *)
Definition is_str_or_unbound (value : option pyval) : Prop :=
  match value with
  | Some v => isinstance_str v = true
  | None => True
  end.

(* --------------------------------------------------------------------- *)
(** *** Steps and texts *)

(** A step the [while] loop does something with: an instance or a
    callable. *)
Definition runs (secret : pyval) : bool :=
  isinstance_BaseSecret secret || callable secret.

(** A base64 text without its [=] characters. *)
Definition strip_padding (s : str) : str :=
  List.filter (fun c => negb (c =? BASE64_PAD)) s.

(** How many times the log records a call to [get_secret_value]. *)
Definition secret_fetches (l : list event) : nat :=
  length (List.filter
            (fun ev => match ev with
                       | Call_get_secret_value _ _ => true
                       | _ => false
                       end) l).

(* ===================================================================== *)
(** ** Properties of the codecs *)
(* ===================================================================== *)

Section BitArithmetic.

(** Bit operations on disjoint fields are sums, shifts are products and
    quotients, masks are remainders. *)
Lemma land_shiftl_low hi lo k :
  0 <= k -> 0 <= lo < 2 ^ k -> Z.land (Z.shiftl hi k) lo = 0.
Proof.
  intros Hk Hlo. apply Z.bits_inj'. intros n Hn.
  rewrite Z.land_spec, Z.bits_0.
  destruct (Z.lt_ge_cases n k) as [Hlt | Hge].
  - rewrite Z.shiftl_spec_low by assumption. reflexivity.
  - rewrite <- (Z.mod_small lo (2 ^ k)) by assumption.
    rewrite Z.mod_pow2_bits_high by lia. apply andb_false_r.
Qed.

Lemma lor_mul_add hi lo k :
  0 <= k -> 0 <= lo < 2 ^ k -> Z.lor (hi * 2 ^ k) lo = hi * 2 ^ k + lo.
Proof.
  intros Hk Hlo. rewrite <- Z.shiftl_mul_pow2 by assumption.
  rewrite <- Z.lxor_lor by (apply land_shiftl_low; assumption).
  symmetry. apply Z.add_nocarry_lxor. apply land_shiftl_low; assumption.
Qed.

Lemma land_mask x k m :
  0 <= k -> m = 2 ^ k - 1 -> Z.land x m = x mod 2 ^ k.
Proof.
  intros Hk ->. replace (2 ^ k - 1) with (Z.ones k).
  - apply Z.land_ones; assumption.
  - rewrite Z.ones_equiv. lia.
Qed.

End BitArithmetic.

Ltac dlia := Z.div_mod_to_equations; lia.

Lemma in_range_yes lo hi b : lo <= b <= hi -> in_range lo hi b = true.
Proof. unfold in_range. intros H. apply andb_true_intro. split; apply Z.leb_le; lia. Qed.

Lemma in_range_no lo hi b : b < lo \/ hi < b -> in_range lo hi b = false.
Proof.
  unfold in_range. intros [H | H].
  - replace (lo <=? b) with false by (symmetry; apply Z.leb_gt; lia). reflexivity.
  - replace (b <=? hi) with false by (symmetry; apply Z.leb_gt; lia).
    apply andb_false_r.
Qed.

Lemma lor_lead (lead x : Z) k :
  0 <= k -> 0 <= x < 2 ^ k -> lead mod 2 ^ k = 0 -> Z.lor lead x = lead + x.
Proof.
  intros Hk Hx Hlead.
  rewrite (Z.div_mod lead (2 ^ k)) at 1 2 by lia.
  rewrite Hlead, Z.add_0_r, (Z.mul_comm (2 ^ k)).
  apply lor_mul_add; assumption.
Qed.

(** Bit operations of the codecs, as arithmetic. *)
Ltac bits_to_arith :=
  repeat match goal with
    | |- context [Z.shiftr ?x ?k] => rewrite (Z.shiftr_div_pow2 x k) by lia
    | |- context [Z.shiftl ?x ?k] => rewrite (Z.shiftl_mul_pow2 x k) by lia
    | |- context [Z.land ?x 3] => rewrite (land_mask x 2 3) by lia
    | |- context [Z.land ?x 7] => rewrite (land_mask x 3 7) by lia
    | |- context [Z.land ?x 15] => rewrite (land_mask x 4 15) by lia
    | |- context [Z.land ?x 31] => rewrite (land_mask x 5 31) by lia
    | |- context [Z.land ?x 63] => rewrite (land_mask x 6 63) by lia
    | |- context [Z.land ?x 255] => rewrite (land_mask x 8 255) by lia
    end.

Ltac lor_to_add :=
  repeat match goal with
    | |- context [Z.lor (?h * 2 ^ ?k) ?x] =>
        rewrite (lor_mul_add h x k) by dlia
    | |- context [Z.lor 128 ?x] => rewrite (lor_lead 128 x 6) by dlia
    | |- context [Z.lor 192 ?x] => rewrite (lor_lead 192 x 6) by dlia
    | |- context [Z.lor 224 ?x] => rewrite (lor_lead 224 x 5) by dlia
    | |- context [Z.lor 240 ?x] => rewrite (lor_lead 240 x 4) by dlia
    end.

Ltac range_to_bool :=
  repeat match goal with
    | |- context [in_range ?lo ?hi ?b] =>
        first [ rewrite (in_range_yes lo hi b) by dlia
              | rewrite (in_range_no lo hi b) by dlia ]
    end.



(** One step of the decoder, for each length of sequence. *)
Lemma utf8_decode_1 b r :
  0 <= b <= 127 -> utf8_decode (b :: r) = cons b <$> utf8_decode r.
Proof. intros H. cbn [utf8_decode]. rewrite in_range_yes by lia. reflexivity. Qed.

Lemma utf8_decode_2 b0 b1 r :
  194 <= b0 <= 223 -> 128 <= b1 <= 191 ->
  utf8_decode (b0 :: b1 :: r) =
  cons (Z.lor (Z.shiftl (Z.land b0 31) 6) (cont_bits b1)) <$> utf8_decode r.
Proof.
  intros H0 H1. remember (b1 :: r) as r0 eqn:E. cbn [utf8_decode].
  rewrite (in_range_no 0 127), (in_range_yes 194 223) by lia.
  subst r0. unfold is_continuation. rewrite in_range_yes by lia. reflexivity.
Qed.

Lemma utf8_decode_3 b0 b1 b2 r :
  224 <= b0 <= 239 -> 128 <= b1 <= 191 ->
  (b0 = 224 -> 160 <= b1) -> (b0 = 237 -> b1 <= 159) ->
  128 <= b2 <= 191 ->
  utf8_decode (b0 :: b1 :: b2 :: r) =
  cons (Z.lor (Z.shiftl (Z.land b0 15) 12)
          (Z.lor (Z.shiftl (cont_bits b1) 6) (cont_bits b2)))
    <$> utf8_decode r.
Proof.
  intros H0 H1 Hlo Hhi H2. remember (b1 :: b2 :: r) as r0 eqn:E.
  cbn [utf8_decode].
  rewrite (in_range_no 0 127), (in_range_no 194 223), (in_range_yes 224 239)
    by lia.
  subst r0. unfold is_continuation.
  rewrite (in_range_yes _ _ b1), (in_range_yes _ _ b2); [reflexivity | lia |].
  destruct (Z.eqb_spec b0 224), (Z.eqb_spec b0 237); lia.
Qed.

Lemma utf8_decode_4 b0 b1 b2 b3 r :
  240 <= b0 <= 244 -> 128 <= b1 <= 191 ->
  (b0 = 240 -> 144 <= b1) -> (b0 = 244 -> b1 <= 143) ->
  128 <= b2 <= 191 -> 128 <= b3 <= 191 ->
  utf8_decode (b0 :: b1 :: b2 :: b3 :: r) =
  cons (Z.lor (Z.shiftl (Z.land b0 7) 18)
          (Z.lor (Z.shiftl (cont_bits b1) 12)
             (Z.lor (Z.shiftl (cont_bits b2) 6) (cont_bits b3))))
    <$> utf8_decode r.
Proof.
  intros H0 H1 Hlo Hhi H2 H3. remember (b1 :: b2 :: b3 :: r) as r0 eqn:E.
  cbn [utf8_decode].
  rewrite (in_range_no 0 127), (in_range_no 194 223), (in_range_no 224 239),
    (in_range_yes 240 244) by lia.
  subst r0. unfold is_continuation.
  rewrite (in_range_yes _ _ b1), (in_range_yes _ _ b2), (in_range_yes _ _ b3);
    [reflexivity | lia | lia |].
  destruct (Z.eqb_spec b0 240), (Z.eqb_spec b0 244); lia.
Qed.

Lemma utf8_decode_encode_char c bs rest :
  utf8_encode_char c = Some bs ->
  utf8_decode (bs ++ rest) = cons c <$> utf8_decode rest.
Proof.
  unfold utf8_encode_char.
  destruct (Z.ltb_spec c 0); [discriminate |].
  destruct (Z.ltb_spec c 128).
  { intros [= <-]. apply utf8_decode_1. lia. }
  destruct (Z.ltb_spec c 2048).
  { intros [= <-]. bits_to_arith. lor_to_add. cbn [app].
    rewrite utf8_decode_2 by dlia. unfold cont_bits.
    f_equal. f_equal. bits_to_arith. lor_to_add. dlia. }
  destruct (Z.ltb_spec c 65536).
  { destruct (Z.leb_spec 55296 c), (Z.ltb_spec c 57344);
      cbn [andb]; try discriminate.
    all: intros [= <-]; bits_to_arith; lor_to_add; cbn [app].
    all: rewrite utf8_decode_3 by dlia; unfold cont_bits.
    all: f_equal; f_equal; bits_to_arith; lor_to_add; dlia. }
  destruct (Z.ltb_spec c 1114112); [| discriminate].
  intros [= <-]. bits_to_arith. lor_to_add. cbn [app].
  rewrite utf8_decode_4 by dlia. unfold cont_bits.
  f_equal. f_equal. bits_to_arith. lor_to_add. dlia.
Qed.

Lemma utf8_decode_encode s bs :
  utf8_encode s = Some bs -> utf8_decode bs = Some s.
Proof.
  revert bs. induction s as [| c s IH]; intros bs.
  - intros [= <-]. reflexivity.
  - cbn [utf8_encode].
    destruct (utf8_encode_char c) as [cs |] eqn:Ec; [| discriminate].
    destruct (utf8_encode s) as [bs' |]; [| discriminate].
    intros [= <-]. rewrite (utf8_decode_encode_char c cs bs' Ec).
    rewrite (IH bs' eq_refl). reflexivity.
Qed.

Lemma utf8_encode_scalar s :
  Forall is_scalar s -> is_Some (utf8_encode s).
Proof.
  induction 1 as [| c s Hc _ [bs IH]]; [eexists; reflexivity |].
  cbn [utf8_encode]. rewrite IH.
  assert (is_Some (utf8_encode_char c)) as [cs ->]; [| eexists; reflexivity].
  unfold utf8_encode_char, is_scalar in *.
  repeat match goal with
    | |- context [?a <? ?b] => destruct (Z.ltb_spec a b)
    | |- context [?a <=? ?b] => destruct (Z.leb_spec a b)
    end; cbn [andb]; try (eexists; reflexivity); lia.
Qed.

(* --------------------------------------------------------------------- *)
(** *** Base64 *)

Lemma table_b2a_base64_range i :
  0 <= i < 64 -> 43 <= table_b2a_base64 i <= 122.
Proof.
  intros H. unfold table_b2a_base64.
  repeat match goal with
    | |- context [?a <? ?b] => destruct (Z.ltb_spec a b)
    | |- context [?a =? ?b] => destruct (Z.eqb_spec a b)
    end; lia.
Qed.

Lemma table_b2a_base64_not_pad i :
  0 <= i < 64 -> (table_b2a_base64 i =? BASE64_PAD) = false.
Proof.
  intros H. apply Z.eqb_neq. unfold table_b2a_base64, BASE64_PAD.
  repeat match goal with
    | |- context [?a <? ?b] => destruct (Z.ltb_spec a b)
    | |- context [?a =? ?b] => destruct (Z.eqb_spec a b)
    end; lia.
Qed.

Lemma table_a2b_b2a i :
  0 <= i < 64 -> table_a2b_base64 (table_b2a_base64 i) = i.
Proof.
  intros H. unfold table_b2a_base64, table_a2b_base64.
  repeat match goal with
    | |- context [?a <? ?b] => destruct (Z.ltb_spec a b)
    end.
  - rewrite in_range_yes by lia. lia.
  - rewrite in_range_no, in_range_yes by lia. lia.
  - rewrite !in_range_no, in_range_yes by lia. lia.
  - rewrite !in_range_no by (destruct (Z.eqb_spec i 62); lia).
    destruct (Z.eqb_spec i 62) as [-> | Hne]; [reflexivity |].
    cbn. lia.
Qed.

(** One turn of the decoding loop on a character of the alphabet, at each
    position of the quad, and on a pad. *)
Lemma a2b_base64_loop_char i rest quad_pos leftchar pads bin_data :
  0 <= i < 64 ->
  a2b_base64_loop (table_b2a_base64 i :: rest) quad_pos leftchar pads bin_data =
  if quad_pos =? 0 then a2b_base64_loop rest 1 i 0 bin_data
  else if quad_pos =? 1 then
    a2b_base64_loop rest 2 (Z.land i 15) 0
      (bin_data ++ [Z.land (Z.lor (Z.shiftl leftchar 2) (Z.shiftr i 4)) 255])
  else if quad_pos =? 2 then
    a2b_base64_loop rest 3 (Z.land i 3) 0
      (bin_data ++ [Z.land (Z.lor (Z.shiftl leftchar 4) (Z.shiftr i 2)) 255])
  else
    a2b_base64_loop rest 0 0 0
      (bin_data ++ [Z.land (Z.lor (Z.shiftl leftchar 6) i) 255]).
Proof.
  intros H. cbn [a2b_base64_loop].
  rewrite table_b2a_base64_not_pad, table_a2b_b2a by assumption.
  replace (64 <=? i) with false by (symmetry; apply Z.leb_gt; lia).
  reflexivity.
Qed.

Lemma a2b_base64_loop_pad rest quad_pos leftchar pads bin_data :
  a2b_base64_loop (BASE64_PAD :: rest) quad_pos leftchar pads bin_data =
  if 2 <=? quad_pos then
    if 4 <=? quad_pos + (pads + 1) then inr bin_data
    else a2b_base64_loop rest quad_pos leftchar (pads + 1) bin_data
  else a2b_base64_loop rest quad_pos leftchar pads bin_data.
Proof. reflexivity. Qed.

(** Lists three elements at a time. *)
Lemma list_ind3 {A} (P : list A -> Prop) :
  P [] -> (forall a, P [a]) -> (forall a b, P [a; b]) ->
  (forall a b c l, P l -> P (a :: b :: c :: l)) ->
  forall l, P l.
Proof.
  intros H0 H1 H2 H3 l.
  assert (P l /\ (forall a, P (a :: l)) /\ (forall a b, P (a :: b :: l)))
    as [H _].
  { induction l as [| x l (IH0 & IH1 & IH2)]; [auto |].
    split; [apply IH1 |]. split; [intros a; apply IH2 |].
    intros a b. apply H3, IH0. }
  exact H.
Qed.

Lemma a2b_base64_loop_char_0 i rest leftchar pads bin_data :
  0 <= i < 64 ->
  a2b_base64_loop (table_b2a_base64 i :: rest) 0 leftchar pads bin_data =
  a2b_base64_loop rest 1 i 0 bin_data.
Proof. intros H. rewrite a2b_base64_loop_char by assumption. reflexivity. Qed.

Lemma a2b_base64_loop_char_1 i rest leftchar pads bin_data :
  0 <= i < 64 ->
  a2b_base64_loop (table_b2a_base64 i :: rest) 1 leftchar pads bin_data =
  a2b_base64_loop rest 2 (Z.land i 15) 0
    (bin_data ++ [Z.land (Z.lor (Z.shiftl leftchar 2) (Z.shiftr i 4)) 255]).
Proof. intros H. rewrite a2b_base64_loop_char by assumption. reflexivity. Qed.

Lemma a2b_base64_loop_char_2 i rest leftchar pads bin_data :
  0 <= i < 64 ->
  a2b_base64_loop (table_b2a_base64 i :: rest) 2 leftchar pads bin_data =
  a2b_base64_loop rest 3 (Z.land i 3) 0
    (bin_data ++ [Z.land (Z.lor (Z.shiftl leftchar 4) (Z.shiftr i 2)) 255]).
Proof. intros H. rewrite a2b_base64_loop_char by assumption. reflexivity. Qed.

Lemma a2b_base64_loop_char_3 i rest leftchar pads bin_data :
  0 <= i < 64 ->
  a2b_base64_loop (table_b2a_base64 i :: rest) 3 leftchar pads bin_data =
  a2b_base64_loop rest 0 0 0
    (bin_data ++ [Z.land (Z.lor (Z.shiftl leftchar 6) i) 255]).
Proof. intros H. rewrite a2b_base64_loop_char by assumption. reflexivity. Qed.

Ltac sextet := bits_to_arith; lor_to_add; dlia.

Lemma a2b_base64_loop_encode bs :
  Forall is_byte bs ->
  forall bin_data,
    a2b_base64_loop (b64encode bs) 0 0 0 bin_data = inr (bin_data ++ bs).
Proof.
  unfold is_byte.
  induction bs as [| a | a b | a b c bs IH] using list_ind3; intros Hbs acc.
  - cbn. rewrite app_nil_r. reflexivity.
  - apply Forall_cons in Hbs as [Ha _]. cbn [b64encode].
    rewrite a2b_base64_loop_char_0, a2b_base64_loop_char_1 by sextet.
    rewrite !a2b_base64_loop_pad. cbn.
    do 3 f_equal. sextet.
  - apply Forall_cons in Hbs as [Ha Hbs]. apply Forall_cons in Hbs as [Hb _].
    cbn [b64encode].
    rewrite a2b_base64_loop_char_0, a2b_base64_loop_char_1,
      a2b_base64_loop_char_2 by sextet.
    rewrite a2b_base64_loop_pad. cbn. rewrite <- app_assoc. cbn [app].
    do 3 f_equal; [sextet |]. f_equal. sextet.
  - apply Forall_cons in Hbs as [Ha Hbs]. apply Forall_cons in Hbs as [Hb Hbs].
    apply Forall_cons in Hbs as [Hc Hbs]. cbn [b64encode].
    rewrite a2b_base64_loop_char_0, a2b_base64_loop_char_1,
      a2b_base64_loop_char_2, a2b_base64_loop_char_3 by sextet.
    rewrite (IH Hbs). rewrite <- !app_assoc. cbn [app].
    do 3 f_equal; [sextet |]. f_equal; [sextet |]. f_equal. sextet.
Qed.

Lemma a2b_base64_b64encode bs :
  Forall is_byte bs -> a2b_base64 (b64encode bs) = inr bs.
Proof. intros H. apply (a2b_base64_loop_encode bs H []). Qed.

Lemma b64encode_ascii bs :
  Forall is_byte bs -> forallb (in_range 0 127) (b64encode bs) = true.
Proof.
  unfold is_byte.
  assert (Hc : forall i, 0 <= i < 64 ->
                 in_range 0 127 (table_b2a_base64 i) = true).
  { intros i Hi. apply in_range_yes.
    pose proof (table_b2a_base64_range i Hi). lia. }
  induction bs as [| a | a b | a b c bs IH] using list_ind3; intros Hbs.
  - reflexivity.
  - apply Forall_cons in Hbs as [Ha _]. cbn [b64encode forallb].
    rewrite !Hc by sextet. reflexivity.
  - apply Forall_cons in Hbs as [Ha Hbs]. apply Forall_cons in Hbs as [Hb _].
    cbn [b64encode forallb]. rewrite !Hc by sextet. reflexivity.
  - apply Forall_cons in Hbs as [Ha Hbs]. apply Forall_cons in Hbs as [Hb Hbs].
    apply Forall_cons in Hbs as [Hc' Hbs]. cbn [b64encode forallb].
    rewrite !Hc by sextet. rewrite (IH Hbs). reflexivity.
Qed.

Lemma utf8_encode_char_bytes c bs :
  utf8_encode_char c = Some bs -> Forall is_byte bs.
Proof.
  unfold utf8_encode_char, is_byte.
  repeat match goal with
    | |- context [?a <? ?b] => destruct (Z.ltb_spec a b)
    | |- context [?a <=? ?b] => destruct (Z.leb_spec a b)
    end; cbn [andb]; intros [= <-]; bits_to_arith; lor_to_add.
  all: repeat (apply Forall_cons; split; [dlia |]); apply Forall_nil_2.
Qed.

Lemma utf8_encode_bytes s bs :
  utf8_encode s = Some bs -> Forall is_byte bs.
Proof.
  revert bs. induction s as [| c s IH]; intros bs.
  - intros [= <-]. constructor.
  - cbn [utf8_encode].
    destruct (utf8_encode_char c) as [cs |] eqn:Ec; [| discriminate].
    destruct (utf8_encode s) as [bs' |]; [| discriminate].
    intros [= <-]. apply Forall_app. split.
    + exact (utf8_encode_char_bytes c cs Ec).
    + apply IH. reflexivity.
Qed.

(* ===================================================================== *)
(** ** Properties of the classes *)
(* ===================================================================== *)

Section Properties.

Variable call_function : nat -> pyval -> M pyval.
Variable object_repr : pyval -> str.

Lemma fresh_lookup (h : list object) o : (h ++ [o]) !! length h = Some o.
Proof. apply list_lookup_middle. reflexivity. Qed.

Lemma fresh_insert (h : list object) o o' :
  <[length h := o']> (h ++ [o]) = h ++ [o'].
Proof.
  rewrite insert_app_r_alt by lia. rewrite Nat.sub_diag. reflexivity.
Qed.

(** Running a [bind] once its first action is known. *)
Lemma bind_Ret {A B} (m : M A) (k : A -> M B) w a w' :
  m w = (Ret a, w') -> bind m k w = k a w'.
Proof. unfold bind. intros ->. reflexivity. Qed.

Lemma bind_Raise {A B} (m : M A) (k : A -> M B) w e w' :
  m w = (Raise e, w') -> bind m k w = (Raise e, w').
Proof. unfold bind. intros ->. reflexivity. Qed.

Lemma bind_ret_r {A} (m : M A) w : bind m ret w = m w.
Proof. unfold bind, ret. destruct (m w) as [[a | e |] w']; reflexivity. Qed.

Lemma record_call_eq e w :
  record_call e w = (Ret tt, set_log (e :: log w) w).
Proof. reflexivity. Qed.

Lemma deref_eq self w o : heap w !! self = Some o -> deref self w = (Ret o, w).
Proof. unfold deref. intros ->. reflexivity. Qed.

Lemma load_attr_eq self name w o :
  heap w !! self = Some o ->
  load_attr self name w =
  (match ob_dict o !! name with
   | Some v => Ret v
   | None => Raise (AttributeError (class_name (ob_class o)) name)
   end, w).
Proof.
  intros H. unfold load_attr. rewrite (bind_Ret _ _ _ _ _ (deref_eq _ _ _ H)).
  destruct (ob_dict o !! name); reflexivity.
Qed.

Lemma load_attr_Some self name w o v :
  heap w !! self = Some o -> ob_dict o !! name = Some v ->
  load_attr self name w = (Ret v, w).
Proof. intros H Hv. rewrite (load_attr_eq _ _ _ _ H), Hv. reflexivity. Qed.

Lemma load_attr_None self name w o :
  heap w !! self = Some o -> ob_dict o !! name = None ->
  load_attr self name w =
  (Raise (AttributeError (class_name (ob_class o)) name), w).
Proof. intros H Hv. rewrite (load_attr_eq _ _ _ _ H), Hv. reflexivity. Qed.

(** [os.getenv] through the lookup of [os.environ]. *)
Lemma os_getenv_encodable k w :
  is_Some (os_fsencode k) ->
  os_getenv (VStr k) w =
  (Ret (match environ w !! k with Some v => VStr v | None => VNone end), w).
Proof.
  intros [name H]. unfold os_getenv. rewrite H.
  change (environ w !! k) with (Environ_lookup k (environ w)).
  unfold Environ_lookup. rewrite H.
  destruct (_data (environ w) !! name); reflexivity.
Qed.

Lemma os_getenv_unencodable k w :
  os_fsencode k = None ->
  os_getenv (VStr k) w = (Raise UnicodeEncodeError, w).
Proof. intros H. unfold os_getenv. rewrite H. reflexivity. Qed.

(** A [str] of Unicode scalar values is encoded as by UTF-8, so it can be
    encoded. *)
Lemma encode_surrogateescape_scalar s :
  Forall is_scalar s -> encode_surrogateescape s = utf8_encode s.
Proof.
  induction 1 as [| c s Hc _ IH]; [reflexivity |].
  cbn [encode_surrogateescape utf8_encode]. rewrite IH.
  unfold encode_surrogateescape_char.
  rewrite in_range_no by (unfold is_scalar in Hc; lia). reflexivity.
Qed.

Lemma os_fsencode_scalar s : Forall is_scalar s -> is_Some (os_fsencode s).
Proof.
  intros Hs. unfold os_fsencode.
  rewrite (encode_surrogateescape_scalar s Hs).
  destruct (utf8_encode_scalar s Hs) as [bs ->]. eexists. reflexivity.
Qed.

Lemma environ_lookup_encodable (env : Environ) (k v : str) :
  env !! k = Some v -> is_Some (os_fsencode k).
Proof.
  change (env !! k) with (Environ_lookup k env). unfold Environ_lookup.
  destruct (os_fsencode k) as [name |]; [eauto | discriminate].
Qed.

Ltac run_new :=
  unfold new, ChainedSecret_init, EnvironmentVariable_init,
    Base64EncodedSecret_init, FileSystemSecret_init,
    store_attr, deref, object_new, bind, ret;
  cbn [heap set_heap]; rewrite fresh_lookup; unfold with_attr;
  cbn [ob_class ob_dict heap set_heap];
  rewrite fresh_insert, insert_empty.

Lemma new_ChainedSecret secrets w :
  new ChainedSecret secrets w =
  (Ret (length (heap w)),
   allocate ChainedSecret {["secrets" := VTuple secrets]} w).
Proof. run_new. reflexivity. Qed.

Lemma new_EnvironmentVariable name w :
  new EnvironmentVariable [name] w =
  (Ret (length (heap w)), allocate EnvironmentVariable {["name" := name]} w).
Proof. run_new. reflexivity. Qed.

Lemma new_Base64EncodedSecret encoded w :
  new Base64EncodedSecret [encoded] w =
  (Ret (length (heap w)),
   allocate Base64EncodedSecret {["encoded" := encoded]} w).
Proof. run_new. reflexivity. Qed.

Lemma new_FileSystemSecret path w :
  new FileSystemSecret [path] w =
  (Ret (length (heap w)), allocate FileSystemSecret {["path" := path]} w).
Proof. run_new. reflexivity. Qed.

(** The attributes of a fresh instance are those of its [__dict__]. *)
Lemma load_attr_allocate c d w name :
  load_attr (length (heap w)) name (allocate c d w) =
  (match d !! name with
   | Some v => Ret v
   | None => Raise (AttributeError (class_name c) name)
   end, allocate c d w).
Proof.
  unfold load_attr, deref, bind, allocate. cbn [heap set_heap].
  rewrite fresh_lookup. cbn [ob_dict ob_class].
  destruct (d !! name); reflexivity.
Qed.

(** No class of the module defines [secret]. *)
Lemma secret_not_class_attr c : "secret" ∉ class_attrs c.
Proof.
  rewrite list_elem_of_In. destruct c; cbn; intros H;
    repeat (destruct H as [H | H]; [discriminate H |]); exact H.
Qed.

(** [get_value] on a chain that [__init__] has just built: the call is
    logged, [self.secret] is looked up, and the lookup fails. *)
Lemma get_value_fresh_ChainedSecret secrets fuel w :
  get_value call_function (S fuel) (length (heap w))
    (allocate ChainedSecret {["secrets" := VTuple secrets]} w) =
  (Raise (AttributeError "ChainedSecret" "secret"),
   set_log (Call_get_value (length (heap w)) :: log w)
     (allocate ChainedSecret {["secrets" := VTuple secrets]} w)).
Proof.
  cbn [get_value]. erewrite bind_Ret by apply record_call_eq.
  erewrite bind_Ret by (apply deref_eq, fresh_lookup). cbn [ob_class].
  unfold ChainedSecret_get_value.
  erewrite bind_Raise
    by (eapply load_attr_None;
        [apply fresh_lookup | apply lookup_singleton_ne; discriminate]).
  reflexivity.
Qed.

(** The same, from the constructor call on. *)
Lemma new_ChainedSecret_get_value secrets fuel w :
  exists c w1 w2,
    new ChainedSecret secrets w = (Ret c, w1) /\
    fst (load_attr c "secrets" w1) = Ret (VTuple secrets) /\
    get_value call_function (S fuel) c w1 =
      (Raise (AttributeError "ChainedSecret" "secret"), w2) /\
    log w2 = Call_get_value c :: log w1.
Proof.
  eexists _, _, _. split; [apply new_ChainedSecret |].
  split; [| split; [apply get_value_fresh_ChainedSecret | reflexivity]].
  rewrite load_attr_allocate, lookup_singleton_eq. reflexivity.
Qed.

(** C1: a chain built with at least one step keeps its steps under
    [secrets]; no class defines [secret] and the instance has no such
    attribute, so its first [get_value] (and so its first [value]) raises
    [AttributeError] for [secret]. *)
Theorem C1_first_get_value_raises_AttributeError secrets fuel w :
  secrets <> [] ->
  exists c w1,
    new ChainedSecret secrets w = (Ret c, w1) /\
    fst (load_attr c "secrets" w1) = Ret (VTuple secrets) /\
    ("secret" ∉ class_attrs ChainedSecret) /\
    fst (get_value call_function (S fuel) c w1) =
      Raise (AttributeError "ChainedSecret" "secret") /\
    fst (value call_function (S fuel) c w1) =
      Raise (AttributeError "ChainedSecret" "secret").
Proof.
  intros _.
  destruct (new_ChainedSecret_get_value secrets fuel w)
    as (c & w1 & w2 & Hnew & Hattr & Hget & _).
  exists c, w1. unfold value. rewrite (bind_Raise _ _ _ _ _ Hget), Hget.
  repeat split; try assumption. apply secret_not_class_attr.
Qed.

(** What the body of [get_value] does once the steps are at hand. *)
Lemma ChainedSecret_resolve_literal mgv l w :
  ChainedSecret_resolve call_function mgv [VStr l] w = (Ret (VStr l), w).
Proof. reflexivity. Qed.

Lemma ChainedSecret_resolve_two_instances mgv a b w :
  ChainedSecret_resolve call_function mgv [VRef a; VRef b] w =
  (run! mgv (VRef a) in mgv (VRef b)) w.
Proof.
  unfold ChainedSecret_resolve, ChainedSecret_loop.
  cbn [isinstance_BaseSecret]. unfold load_local, bind, ret, raise.
  destruct (mgv (VRef a) w) as [[va | e |] w1]; try reflexivity.
  destruct (mgv (VRef b) w1) as [[vb | e |] w2]; reflexivity.
Qed.

Lemma ChainedSecret_resolve_literal_transform mgv x f w :
  callable f = true ->
  ChainedSecret_resolve call_function mgv [VStr x; f] w =
  (let! secret := call call_function f (VStr x) in mgv secret) w.
Proof.
  intros Hf. unfold ChainedSecret_resolve, ChainedSecret_loop.
  cbn [isinstance_BaseSecret isinstance_str].
  replace (isinstance_BaseSecret f) with false
    by (destruct f; try reflexivity; discriminate Hf).
  rewrite Hf. unfold load_local, bind, ret, raise. cbv beta iota.
  destruct (call call_function f (VStr x) w) as [[s | e |] w1];
    try reflexivity.
  destruct (mgv s w1) as [[v | e |] w2]; reflexivity.
Qed.

(** C2: on a chain of two instances the code raises [AttributeError]
    before either instance is asked: the log gains the call on the chain
    and nothing else. *)
Theorem C2_two_instances_get_value_raises a b fuel w :
  exists c w1 w2,
    new ChainedSecret [VRef a; VRef b] w = (Ret c, w1) /\
    get_value call_function (S fuel) c w1 =
      (Raise (AttributeError "ChainedSecret" "secret"), w2) /\
    log w2 = Call_get_value c :: log w1.
Proof.
  destruct (new_ChainedSecret_get_value [VRef a; VRef b] fuel w)
    as (c & w1 & w2 & Hnew & _ & Hget & Hlog).
  exists c, w1, w2. auto.
Qed.

(** C3: on a chain of a literal and a transform the code raises
    [AttributeError]; the transform is never called. *)
Theorem C3_literal_transform_get_value_raises x (f : pyval) fuel w :
  exists c w1,
    new ChainedSecret [VStr x; f] w = (Ret c, w1) /\
    get_value call_function (S fuel) c w1 =
      (Raise (AttributeError "ChainedSecret" "secret"),
       set_log (Call_get_value c :: log w1) w1).
Proof.
  eexists _, _. split; [apply new_ChainedSecret |].
  rewrite get_value_fresh_ChainedSecret. reflexivity.
Qed.

(** C4: on a chain of one literal the code raises [AttributeError] instead
    of returning the literal. *)
Theorem C4_single_literal_get_value_raises l fuel w :
  exists c w1,
    new ChainedSecret [VStr l] w = (Ret c, w1) /\
    fst (get_value call_function (S fuel) c w1) =
      Raise (AttributeError "ChainedSecret" "secret").
Proof.
  eexists _, _. split; [apply new_ChainedSecret |].
  rewrite get_value_fresh_ChainedSecret. reflexivity.
Qed.

(** C5, as the code has it: building a chain of zero steps raises nothing;
    the empty tuple is stored under [secrets]. *)
Theorem C5_empty_chain_is_constructed w :
  exists c w1,
    new ChainedSecret [] w = (Ret c, w1) /\
    fst (load_attr c "secrets" w1) = Ret (VTuple []).
Proof.
  eexists _, _. split; [apply new_ChainedSecret |].
  rewrite load_attr_allocate, lookup_singleton_eq. reflexivity.
Qed.

(* --------------------------------------------------------------------- *)
(** *** [EnvironmentVariable] *)

Lemma get_value_fresh_EnvironmentVariable name fuel w :
  is_Some (os_fsencode name) ->
  fst (get_value call_function (S fuel) (length (heap w))
         (allocate EnvironmentVariable {["name" := VStr name]} w)) =
  match environ w !! name with
  | Some v => Ret (VStr v)
  | None => Raise (Undefined (VStr name))
  end.
Proof.
  intros Hname. cbn [get_value]. erewrite bind_Ret by apply record_call_eq.
  erewrite bind_Ret by (apply deref_eq, fresh_lookup). cbn [ob_class].
  unfold EnvironmentVariable_get_value.
  erewrite bind_Ret
    by (eapply load_attr_Some; [apply fresh_lookup | apply lookup_singleton_eq]).
  erewrite bind_Ret by (apply os_getenv_encodable, Hname).
  cbn [environ set_log allocate set_heap].
  destruct (environ w !! name) as [v |]; [reflexivity |].
  erewrite bind_Ret
    by (eapply load_attr_Some; [apply fresh_lookup | apply lookup_singleton_eq]).
  reflexivity.
Qed.

(** C7: for a name [N] that the file-system encoding can encode (any name
    a process environment can hold), [EnvironmentVariable(N).value] is the
    value of [N] in the environment when there is one, and raises
    [Undefined(N)] when [N] is not set. *)
Theorem C7_EnvironmentVariable_value N fuel w :
  is_Some (os_fsencode N) ->
  fst ((let! secret := new EnvironmentVariable [VStr N] in
        value call_function (S fuel) secret) w) =
  match environ w !! N with
  | Some v => Ret (VStr v)
  | None => Raise (Undefined (VStr N))
  end.
Proof.
  intros HN. unfold bind at 1. rewrite new_EnvironmentVariable.
  rewrite <- (get_value_fresh_EnvironmentVariable N fuel w HN).
  unfold value, bind, ret.
  destruct (get_value _ _ _ _) as [[v | e |] w1]; reflexivity.
Qed.

(** A name that cannot be encoded: [os.getenv] raises before any lookup. *)
Lemma EnvironmentVariable_unencodable_name N fuel w :
  os_fsencode N = None ->
  fst ((let! secret := new EnvironmentVariable [VStr N] in
        value call_function (S fuel) secret) w) = Raise UnicodeEncodeError.
Proof.
  intros HN. erewrite bind_Ret by apply new_EnvironmentVariable.
  unfold value. rewrite bind_ret_r. cbn [get_value].
  erewrite bind_Ret by apply record_call_eq.
  erewrite bind_Ret by (apply deref_eq, fresh_lookup). cbn [ob_class].
  unfold EnvironmentVariable_get_value.
  erewrite bind_Ret
    by (eapply load_attr_Some; [apply fresh_lookup | apply lookup_singleton_eq]).
  erewrite bind_Raise by (apply os_getenv_unencodable, HN). reflexivity.
Qed.

(* --------------------------------------------------------------------- *)
(** *** [Base64EncodedSecret] *)

Lemma get_value_fresh_Base64EncodedSecret s bs fuel w :
  utf8_encode s = Some bs ->
  fst (get_value call_function (S fuel) (length (heap w))
         (allocate Base64EncodedSecret
            {["encoded" := VStr (b64encode bs)]} w)) =
  Ret (VStr s).
Proof.
  intros Hs. pose proof (utf8_encode_bytes s bs Hs) as Hbs.
  cbn [get_value]. erewrite bind_Ret by apply record_call_eq.
  erewrite bind_Ret by (apply deref_eq, fresh_lookup). cbn [ob_class].
  unfold Base64EncodedSecret_get_value.
  erewrite bind_Ret
    by (eapply load_attr_Some; [apply fresh_lookup | apply lookup_singleton_eq]).
  erewrite bind_Ret.
  2:{ unfold base64_b64decode. rewrite (b64encode_ascii bs Hbs).
      rewrite (a2b_base64_b64encode bs Hbs). reflexivity. }
  cbn [isinstance_bytes bytes_decode].
  rewrite (utf8_decode_encode s bs Hs). reflexivity.
Qed.

(** C6: for a [str] of Unicode scalar values, the base64 text of its UTF-8
    encoding exists, and a [Base64EncodedSecret] built from it has the
    [str] itself as its value. *)
Theorem C6_Base64EncodedSecret_round_trip (s : str) fuel w :
  Forall is_scalar s ->
  exists encoded,
    base64_encode s = Some encoded /\
    fst ((let! secret := new Base64EncodedSecret [VStr encoded] in
          value call_function (S fuel) secret) w) = Ret (VStr s).
Proof.
  intros Hs. destruct (utf8_encode_scalar s Hs) as [bs Hbs].
  exists (b64encode bs). split.
  - unfold base64_encode. rewrite Hbs. reflexivity.
  - unfold bind at 1. rewrite new_Base64EncodedSecret.
    pose proof (get_value_fresh_Base64EncodedSecret s bs fuel w Hbs) as H.
    unfold value, bind, ret.
    destruct (get_value _ _ _ _) as [[v | e |] w1]; exact H.
Qed.

(* --------------------------------------------------------------------- *)
(** *** The dispatch loop of [ChainedSecret] *)

Section Loop.

Variable mgv : pyval -> M pyval.

Lemma ChainedSecret_loop_skip_str s post :
  forall pre value w,
    ChainedSecret_loop call_function mgv (pre ++ VStr s :: post) value w =
    ChainedSecret_loop call_function mgv (pre ++ post) value w.
Proof.
  induction pre as [| secret pre IH]; intros value w; [reflexivity |].
  cbn [app ChainedSecret_loop].
  destruct (isinstance_BaseSecret secret).
  - unfold bind. destruct (mgv secret w) as [[v | e |] w1]; auto.
  - destruct (callable secret); [| apply IH].
    unfold bind.
    destruct (load_local "value" value w) as [[v | e |] w1]; [| reflexivity ..].
    destruct (call call_function secret v w1) as [[s' | e |] w2];
      [| reflexivity ..].
    destruct (mgv s' w2) as [[v' | e |] w3]; auto.
Qed.

(** C10: a [str] step after the first takes neither branch of the loop:
    the loop goes on with [value] as it was, and the chain resolves as if
    the step were not there. *)
Theorem C10_str_step_after_first_is_skipped first pre s post w :
  (forall value,
     ChainedSecret_loop call_function mgv (VStr s :: post) value w =
     ChainedSecret_loop call_function mgv post value w) /\
  ChainedSecret_resolve call_function mgv (first :: pre ++ VStr s :: post) w =
  ChainedSecret_resolve call_function mgv (first :: pre ++ post) w.
Proof.
  split; [reflexivity |].
  unfold ChainedSecret_resolve, bind.
  destruct (_ w) as [[value | e |] w1]; [| reflexivity ..].
  rewrite ChainedSecret_loop_skip_str. reflexivity.
Qed.

End Loop.

(* --------------------------------------------------------------------- *)
(** *** Values are [str]; [__str__] *)

Lemma bind_Ret_inv {A B} (m : M A) (k : A -> M B) w b w' :
  bind m k w = (Ret b, w') ->
  exists a w1, m w = (Ret a, w1) /\ k a w1 = (Ret b, w').
Proof.
  unfold bind. destruct (m w) as [[a | e |] w1]; try discriminate.
  intros H. exists a, w1. auto.
Qed.

Lemma ChainedSecret_loop_str mgv :
  (forall secret, returns_str (mgv secret)) ->
  forall secrets value w r w',
    is_str_or_unbound value ->
    ChainedSecret_loop call_function mgv secrets value w = (Ret r, w') ->
    is_str_or_unbound r.
Proof.
  intros Hmgv. induction secrets as [| secret secrets IH];
    intros value w r w' Hvalue.
  - intros [= <- _]. exact Hvalue.
  - cbn [ChainedSecret_loop]. destruct (isinstance_BaseSecret secret).
    + intros (v & w1 & Hv & Hloop)%bind_Ret_inv.
      apply (IH (Some v) _ _ _ (Hmgv _ _ _ _ Hv) Hloop).
    + destruct (callable secret); [| apply IH; exact Hvalue].
      intros (v0 & w1 & _ & (s & w2 & _ & (v & w3 & Hv & Hloop)%bind_Ret_inv)
                                %bind_Ret_inv)%bind_Ret_inv.
      apply (IH (Some v) _ _ _ (Hmgv _ _ _ _ Hv) Hloop).
Qed.

Lemma ChainedSecret_resolve_str mgv secrets :
  (forall secret, returns_str (mgv secret)) ->
  returns_str (ChainedSecret_resolve call_function mgv secrets).
Proof.
  intros Hmgv w v w'. destruct secrets as [| secret secrets];
    [discriminate |].
  cbn [ChainedSecret_resolve].
  intros (value & w1 & Hfirst & (r & w2 & Hloop & Hlocal)%bind_Ret_inv)
           %bind_Ret_inv.
  assert (Hvalue : is_str_or_unbound value).
  { destruct (isinstance_BaseSecret secret).
    - apply bind_Ret_inv in Hfirst as (v0 & w0 & Hv0 & [= <- _]).
      apply (Hmgv _ _ _ _ Hv0).
    - destruct (isinstance_str secret) eqn:Hstr;
        injection Hfirst as <- _; [exact Hstr | exact I]. }
  pose proof (ChainedSecret_loop_str mgv Hmgv _ _ _ _ _ Hvalue Hloop) as Hr.
  destruct r as [v' |]; [| discriminate].
  injection Hlocal as <- _. exact Hr.
Qed.

(** Whatever its class, an instance that resolves resolves to a [str]. *)
Lemma get_value_str fuel : forall self, returns_str (get_value call_function fuel self).
Proof.
  induction fuel as [| fuel IH]; intros self w v w'; [discriminate |].
  cbn [get_value].
  intros ([] & w1 & _ & (o & w2 & _ & Hget)%bind_Ret_inv)%bind_Ret_inv.
  destruct (ob_class o).
  - discriminate Hget.
  - apply bind_Ret_inv in Hget as (c & w3 & _ & Hget).
    apply bind_Ret_inv in Hget as (sid & w4 & _ & Hget).
    apply bind_Ret_inv in Hget as (resp & w5 & _ & Hget).
    destruct resp as [| | | | | | | | | | [s |]]; try discriminate Hget.
    injection Hget as <- _. reflexivity.
  - apply bind_Ret_inv in Hget as (name & w3 & _ & Hget).
    apply bind_Ret_inv in Hget as (val & w4 & Hval & Hget).
    unfold os_getenv in Hval. destruct name; try discriminate Hval.
    destruct (os_fsencode s); [| discriminate Hval].
    injection Hval as <- _.
    destruct (_data (environ w3) !! s0);
      [| apply bind_Ret_inv in Hget as (? & ? & _ & [=])].
    injection Hget as <- _. reflexivity.
  - apply bind_Ret_inv in Hget as (enc & w3 & _ & Hget).
    apply bind_Ret_inv in Hget as (dec & w4 & Hdec & Hget).
    assert (exists b, dec = VBytes b) as [b ->].
    { unfold base64_b64decode in Hdec.
      destruct enc; try discriminate Hdec.
      - destruct (forallb _ _); [| discriminate Hdec].
        destruct (a2b_base64 s); [discriminate Hdec |].
        injection Hdec as <- _. eauto.
      - destruct (a2b_base64 b); [discriminate Hdec |].
        injection Hdec as <- _. eauto. }
    cbn [isinstance_bytes bytes_decode] in Hget.
    destruct (utf8_decode b); [| discriminate Hget].
    injection Hget as <- _. reflexivity.
  - apply bind_Ret_inv in Hget as (path & w3 & _ & Hget).
    unfold open_and_read in Hget.
    destruct (open_read w3 path); [discriminate Hget |].
    injection Hget as <- _. reflexivity.
  - unfold ChainedSecret_get_value in Hget.
    apply bind_Ret_inv in Hget as (attr & w3 & _ & Hget).
    apply bind_Ret_inv in Hget as (secrets & w4 & _ & Hget).
    revert Hget. apply ChainedSecret_resolve_str.
    intros [] w5 v5 w6; try discriminate. apply IH.
Qed.

(** C9: when [s.value] succeeds it is a [str], and [str(s)] is that same
    [str], reached in the same world. *)
Theorem C9_str_is_value fuel self w v w' :
  value call_function fuel self w = (Ret v, w') ->
  isinstance_str v = true /\
  __str__ call_function object_repr fuel self w = (Ret v, w').
Proof.
  intros H. assert (Hstr : isinstance_str v = true).
  { unfold value in H. rewrite bind_ret_r in H.
    exact (get_value_str fuel self w v w' H). }
  split; [exact Hstr |].
  unfold __str__. rewrite (bind_Ret _ _ _ _ _ H).
  destruct v; try discriminate Hstr. reflexivity.
Qed.

(* --------------------------------------------------------------------- *)
(** *** [AWSSecretsManagerSecret]: the client handle *)

Lemma store_attr_eq self name v w o :
  heap w !! self = Some o ->
  store_attr self name v w =
  (Ret tt, set_heap (<[self := with_attr name v o]> (heap w)) w).
Proof.
  intros H. unfold store_attr.
  rewrite (bind_Ret _ _ _ _ _ (deref_eq _ _ _ H)). reflexivity.
Qed.

Lemma snd_bind_Ret {A B} (m : M A) (k : A -> M B) w a w' :
  m w = (Ret a, w') -> snd (bind m k w) = snd (k a w').
Proof. intros H. rewrite (bind_Ret _ _ _ _ _ H). reflexivity. Qed.

Lemma new_AWSSecretsManagerSecret secret_id w :
  new AWSSecretsManagerSecret [secret_id] w =
  if boto3_installed w then
    (Ret (length (heap w)),
     allocate AWSSecretsManagerSecret
       (<["boto3" := VModule_boto3]> {["secret_id" := secret_id]}) w)
  else
    (Raise ModuleNotFoundError,
     allocate AWSSecretsManagerSecret {["secret_id" := secret_id]} w).
Proof.
  unfold new. erewrite bind_Ret by reflexivity.
  unfold AWSSecretsManagerSecret_init.
  destruct (boto3_installed w) eqn:E.
  - erewrite bind_Ret.
    2:{ erewrite bind_Ret by (apply store_attr_eq, fresh_lookup).
        erewrite bind_Ret
          by (unfold import_boto3; cbn [boto3_installed set_heap];
              rewrite E; reflexivity).
        apply store_attr_eq. cbn [heap set_heap].
        rewrite fresh_insert. apply fresh_lookup. }
    unfold ret, allocate, with_attr. cbn [heap set_heap ob_class ob_dict].
    rewrite !fresh_insert, insert_empty. reflexivity.
  - erewrite bind_Raise.
    2:{ erewrite bind_Ret by (apply store_attr_eq, fresh_lookup).
        erewrite bind_Raise; [reflexivity |].
        unfold import_boto3. cbn [boto3_installed set_heap].
        rewrite E. reflexivity. }
    unfold allocate, with_attr. cbn [heap set_heap ob_class ob_dict].
    rewrite !fresh_insert, insert_empty. reflexivity.
Qed.

Section Client.

Variables (self : addr) (secret_id : pyval).


(** An access to [value] when the client is in the [__dict__]: no client is
    made, and [get_secret_value] goes to the stored handle. *)
Lemma value_client_cached fuel w h :
  initialised self secret_id w (Some (VClient h)) ->
  snd (value call_function (S fuel) self w) =
  set_log (Call_get_secret_value h secret_id :: Call_get_value self :: log w)
    w.
Proof.
  intros (o & Ho & Hc & Hid & Hb & Hcl).
  unfold value. rewrite bind_ret_r. cbn [get_value].
  erewrite snd_bind_Ret by apply record_call_eq.
  erewrite snd_bind_Ret by (apply deref_eq, Ho). rewrite Hc.
  unfold AWSSecretsManagerSecret_get_value.
  erewrite snd_bind_Ret.
  2:{ unfold AWSSecretsManagerSecret_client.
      erewrite bind_Ret by (apply deref_eq, Ho). rewrite Hcl. reflexivity. }
  erewrite snd_bind_Ret by (eapply load_attr_Some; [apply Ho | apply Hid]).
  unfold bind, client_get_secret_value. cbn [secretsmanager set_log].
  destruct (secretsmanager w secret_id) as [e | [s |]]; reflexivity.
Qed.

(** The first access when [boto3.client] answers: one client is made, kept
    in the [__dict__], and used. *)
Lemma value_client_made fuel w :
  initialised self secret_id w None -> boto3_client w = None ->
  exists o,
    heap w !! self = Some o /\
    snd (value call_function (S fuel) self w) =
    set_log (Call_get_secret_value (clients w) secret_id
             :: Call_boto3_client (clients w)
             :: Call_get_value self :: log w)
      (set_heap (<[self := with_attr "client" (VClient (clients w)) o]>
                   (heap w))
         (set_clients (S (clients w)) w)).
Proof.
  intros (o & Ho & Hc & Hid & Hb & Hcl) Hboto. exists o. split; [exact Ho |].
  unfold value. rewrite bind_ret_r. cbn [get_value].
  erewrite snd_bind_Ret by apply record_call_eq.
  erewrite snd_bind_Ret by (apply deref_eq, Ho). rewrite Hc.
  unfold AWSSecretsManagerSecret_get_value.
  erewrite snd_bind_Ret.
  2:{ unfold AWSSecretsManagerSecret_client.
      erewrite bind_Ret by (apply deref_eq, Ho). rewrite Hcl.
      erewrite bind_Ret.
      2:{ unfold AWSSecretsManagerSecret_get_client.
          erewrite bind_Ret
            by (eapply load_attr_Some; [apply Ho | apply Hb]).
          unfold boto3_client_call. cbn [boto3_client set_log].
          rewrite Hboto. reflexivity. }
      erewrite bind_Ret by (apply store_attr_eq, Ho). reflexivity. }
  erewrite snd_bind_Ret.
  2:{ eapply load_attr_Some.
      - cbn [heap set_heap set_log set_clients].
        apply list_lookup_insert_eq. eapply lookup_lt_Some, Ho.
      - cbn [with_attr ob_dict]. rewrite lookup_insert_ne by discriminate.
        exact Hid. }
  unfold bind, client_get_secret_value.
  cbn [secretsmanager set_log set_heap set_clients clients log].
  destruct (secretsmanager w secret_id) as [e | [s |]]; reflexivity.
Qed.

(** An access when [boto3.client] raises: nothing is made, nothing kept. *)
Lemma value_client_refused fuel w e :
  initialised self secret_id w None -> boto3_client w = Some e ->
  snd (value call_function (S fuel) self w) =
  set_log (Call_get_value self :: log w) w.
Proof.
  intros (o & Ho & Hc & Hid & Hb & Hcl) Hboto.
  unfold value. rewrite bind_ret_r. cbn [get_value].
  erewrite snd_bind_Ret by apply record_call_eq.
  erewrite snd_bind_Ret by (apply deref_eq, Ho). rewrite Hc.
  unfold AWSSecretsManagerSecret_get_value.
  erewrite bind_Raise; [reflexivity |].
  unfold AWSSecretsManagerSecret_client.
  erewrite bind_Ret by (apply deref_eq, Ho). rewrite Hcl.
  erewrite bind_Raise; [reflexivity |].
  unfold AWSSecretsManagerSecret_get_client.
  erewrite bind_Ret by (eapply load_attr_Some; [apply Ho | apply Hb]).
  unfold boto3_client_call. cbn [boto3_client set_log].
  rewrite Hboto. reflexivity.
Qed.

Lemma initialised_heap w w' client :
  heap w' = heap w -> initialised self secret_id w client -> initialised self secret_id w' client.
Proof. unfold initialised. intros ->. auto. Qed.

Lemma cached_accesses_cons h n base :
  cached_accesses self h secret_id n
    (Call_get_secret_value h secret_id :: Call_get_value self :: base) =
  Call_get_secret_value h secret_id :: Call_get_value self
  :: cached_accesses self h secret_id n base.
Proof.
  induction n as [| n IH]; [reflexivity |].
  cbn [cached_accesses]. rewrite IH. reflexivity.
Qed.

Lemma refused_accesses_cons n base :
  refused_accesses self n (Call_get_value self :: base) =
  Call_get_value self :: refused_accesses self n base.
Proof.
  induction n as [| n IH]; [reflexivity |].
  cbn [refused_accesses]. rewrite IH. reflexivity.
Qed.

(** Accesses once the client is kept: none makes a client, each calls
    [get_secret_value] on the kept handle, and the handle stays. *)
Lemma value_times_cached fuel h n :
  forall w,
    initialised self secret_id w (Some (VClient h)) ->
    initialised self secret_id
      (value_times call_function (S fuel) n self w) (Some (VClient h)) /\
    clients (value_times call_function (S fuel) n self w) = clients w /\
    log (value_times call_function (S fuel) n self w) =
      cached_accesses self h secret_id n (log w).
Proof.
  induction n as [| n IH]; intros w Hinit; [auto |].
  cbn [value_times]. rewrite (value_client_cached fuel w h Hinit).
  destruct (IH (set_log (Call_get_secret_value h secret_id
                         :: Call_get_value self :: log w) w))
    as (Hi & Hc & Hl).
  { revert Hinit. apply initialised_heap. reflexivity. }
  split; [exact Hi |]. split; [exact Hc |].
  rewrite Hl. cbn [log set_log cached_accesses].
  apply cached_accesses_cons.
Qed.

(** Accesses while [boto3.client] raises: nothing is made or kept. *)
Lemma value_times_refused fuel e n :
  forall w,
    initialised self secret_id w None -> boto3_client w = Some e ->
    initialised self secret_id
      (value_times call_function (S fuel) n self w) None /\
    clients (value_times call_function (S fuel) n self w) = clients w /\
    log (value_times call_function (S fuel) n self w) =
      refused_accesses self n (log w).
Proof.
  induction n as [| n IH]; intros w Hinit He; [auto |].
  cbn [value_times]. rewrite (value_client_refused fuel w e Hinit He).
  destruct (IH (set_log (Call_get_value self :: log w) w))
    as (Hi & Hc & Hl).
  { revert Hinit. apply initialised_heap. reflexivity. }
  { exact He. }
  split; [exact Hi |]. split; [exact Hc |].
  rewrite Hl. cbn [log set_log refused_accesses].
  apply refused_accesses_cons.
Qed.

(** The first access when [boto3.client] answers: the client of the next
    free handle is made, kept and called. *)
Lemma first_value_makes_client fuel w :
  initialised self secret_id w None -> boto3_client w = None ->
  initialised self secret_id (snd (value call_function (S fuel) self w))
    (Some (VClient (clients w))) /\
  clients (snd (value call_function (S fuel) self w)) = S (clients w) /\
  log (snd (value call_function (S fuel) self w)) =
    Call_get_secret_value (clients w) secret_id
    :: Call_boto3_client (clients w) :: Call_get_value self :: log w.
Proof.
  intros Hinit He.
  destruct (value_client_made fuel w Hinit He) as (o & Ho & ->).
  split; [| split; reflexivity].
  destruct Hinit as (o' & Ho' & Hc & Hid & Hb & _).
  assert (o' = o) as -> by congruence.
  exists (with_attr "client" (VClient (clients w)) o).
  cbn [heap set_log set_heap set_clients with_attr ob_class ob_dict].
  split; [apply list_lookup_insert_eq; eapply lookup_lt_Some, Ho |].
  rewrite !lookup_insert_ne by discriminate.
  rewrite lookup_insert_eq. auto.
Qed.

End Client.

(** C8: building the provider makes no client and keeps none.  Then, over
    any number of accesses to [value]: when [boto3.client] answers, the
    first access makes one client, keeps it in the instance [__dict__] and
    calls [get_secret_value] on it, and every later access makes none and
    calls [get_secret_value] on that same kept handle, so that one client
    has been made in all; when [boto3.client] raises, no client is made or
    kept. *)
Theorem C8_client_is_lazy_and_memoized secret_id fuel n w self w1 :
  new AWSSecretsManagerSecret [secret_id] w = (Ret self, w1) ->
  (clients w1 = clients w /\ log w1 = log w /\
   initialised self secret_id w1 None) /\
  let h := clients w in
  let wn := value_times call_function (S fuel) (S n) self w1 in
  match boto3_client w with
  | None =>
      clients wn = S h /\
      initialised self secret_id wn (Some (VClient h)) /\
      log wn =
        cached_accesses self h secret_id n
          (Call_get_secret_value h secret_id :: Call_boto3_client h
           :: Call_get_value self :: log w)
  | Some e =>
      clients wn = h /\
      initialised self secret_id wn None /\
      log wn = refused_accesses self (S n) (log w)
  end.
Proof.
  rewrite new_AWSSecretsManagerSecret.
  destruct (boto3_installed w); [| discriminate].
  intros [= <- <-].
  assert (Hinit : initialised (length (heap w)) secret_id
            (allocate AWSSecretsManagerSecret
               (<["boto3" := VModule_boto3]> {["secret_id" := secret_id]}) w)
            None).
  { eexists. split; [apply fresh_lookup |]. cbn [ob_class ob_dict].
    rewrite lookup_insert_eq, !lookup_insert_ne by discriminate.
    rewrite lookup_singleton_eq, lookup_singleton_ne by discriminate. auto. }
  split; [auto |]. cbn zeta.
  destruct (boto3_client w) as [e |] eqn:He.
  - destruct (value_times_refused _ secret_id fuel e (S n) _ Hinit He)
      as (Hi & Hc & Hl).
    split; [exact Hc |]. split; [exact Hi | exact Hl].
  - cbn [value_times].
    destruct (first_value_makes_client _ secret_id fuel _ Hinit He)
      as (Hi1 & Hc1 & Hl1).
    destruct (value_times_cached _ secret_id fuel _ n _ Hi1)
      as (Hi & Hc & Hl).
    split; [rewrite Hc; exact Hc1 |]. split; [exact Hi |].
    rewrite Hl, Hl1. reflexivity.
Qed.

End Properties.

(** The module-level [password] in [world0]: reading its value raises; the
    body of [get_value], given the two steps, yields the decoded secret. *)
Example password_value_raises :
  fst ((let! secret := password in value no_functions 2 secret) world0) =
  Raise (AttributeError "ChainedSecret" "secret").
Proof. vm_compute. reflexivity. Qed.

Example password_steps_resolve :
  fst ((let! admin := new EnvironmentVariable [VStr (lit "ADMIN_PASSWORD")] in
        ChainedSecret_resolve no_functions
          (method_get_value (get_value no_functions 1))
          [VRef admin; VClass Base64EncodedSecret]) world0) =
  Ret (VStr (lit "s3cr3t")).
Proof. vm_compute. reflexivity. Qed.

(** C5, as stated, fails: in [world0] the constructor returns. *)
Lemma C5_empty_chain_construction_does_not_raise :
  ~ (exists e, fst (new ChainedSecret [] world0) = Raise e).
Proof. intros [e H]. rewrite new_ChainedSecret in H. discriminate H. Qed.

Lemma C1_witness :
  [VStr (lit "pw")] <> [] /\
  exists c w1,
    new ChainedSecret [VStr (lit "pw")] world0 = (Ret c, w1) /\
    fst (load_attr c "secrets" w1) = Ret (VTuple [VStr (lit "pw")]) /\
    ("secret" ∉ class_attrs ChainedSecret) /\
    fst (get_value no_functions 1 c w1) =
      Raise (AttributeError "ChainedSecret" "secret") /\
    fst (value no_functions 1 c w1) =
      Raise (AttributeError "ChainedSecret" "secret").
Proof.
  split; [discriminate |].
  apply (C1_first_get_value_raises_AttributeError no_functions
           [VStr (lit "pw")] 0 world0).
  discriminate.
Defined.

Lemma C7_witness :
  is_Some (os_fsencode (lit "ADMIN_PASSWORD")) /\
  is_Some (os_fsencode (lit "HOME")) /\
  fst ((let! secret :=
          new EnvironmentVariable [VStr (lit "ADMIN_PASSWORD")] in
        value no_functions 1 secret) world0) =
    Ret (VStr (lit "czNjcjN0")) /\
  fst ((let! secret := new EnvironmentVariable [VStr (lit "HOME")] in
        value no_functions 1 secret) world0) =
    Raise (Undefined (VStr (lit "HOME"))).
Proof.
  assert (H1 : is_Some (os_fsencode (lit "ADMIN_PASSWORD")))
    by (eexists; reflexivity).
  assert (H2 : is_Some (os_fsencode (lit "HOME"))) by (eexists; reflexivity).
  split; [exact H1 |]. split; [exact H2 |]. split.
  - exact (C7_EnvironmentVariable_value no_functions (lit "ADMIN_PASSWORD")
             0 world0 H1).
  - exact (C7_EnvironmentVariable_value no_functions (lit "HOME") 0 world0
             H2).
Defined.

(** [EnvironmentVariable("\ud800")]: the lone surrogate cannot be encoded,
    and the access raises [UnicodeEncodeError], not [Undefined]. *)
Example EnvironmentVariable_lone_surrogate :
  fst ((let! secret := new EnvironmentVariable [VStr [55296]] in
        value no_functions 1 secret) world0) = Raise UnicodeEncodeError.
Proof. apply EnvironmentVariable_unencodable_name. reflexivity. Qed.

Lemma C6_witness :
  Forall is_scalar (lit "s3cr3t") /\
  exists encoded,
    base64_encode (lit "s3cr3t") = Some encoded /\
    fst ((let! secret := new Base64EncodedSecret [VStr encoded] in
          value no_functions 1 secret) world0) = Ret (VStr (lit "s3cr3t")).
Proof.
  assert (H : Forall is_scalar (lit "s3cr3t")).
  { repeat constructor; unfold is_scalar; cbn; lia. }
  split; [exact H |].
  exact (C6_Base64EncodedSecret_round_trip no_functions (lit "s3cr3t") 0
           world0 H).
Defined.

Lemma C9_witness :
  value no_functions 1 0%nat
    (allocate EnvironmentVariable {["name" := VStr (lit "ADMIN_PASSWORD")]}
       world0) =
  (Ret (VStr (lit "czNjcjN0")),
   set_log [Call_get_value 0%nat]
     (allocate EnvironmentVariable {["name" := VStr (lit "ADMIN_PASSWORD")]}
        world0)) /\
  isinstance_str (VStr (lit "czNjcjN0")) = true /\
  __str__ no_functions no_repr 1 0%nat
    (allocate EnvironmentVariable {["name" := VStr (lit "ADMIN_PASSWORD")]}
       world0) =
  (Ret (VStr (lit "czNjcjN0")),
   set_log [Call_get_value 0%nat]
     (allocate EnvironmentVariable {["name" := VStr (lit "ADMIN_PASSWORD")]}
        world0)).
Proof.
  assert (H : value no_functions 1 0%nat
    (allocate EnvironmentVariable {["name" := VStr (lit "ADMIN_PASSWORD")]}
       world0) =
  (Ret (VStr (lit "czNjcjN0")),
   set_log [Call_get_value 0%nat]
     (allocate EnvironmentVariable {["name" := VStr (lit "ADMIN_PASSWORD")]}
        world0))) by (vm_compute; reflexivity).
  split; [exact H |].
  exact (C9_str_is_value no_functions no_repr 1 0%nat _ _ _ H).
Defined.

Lemma C8_witness :
  new AWSSecretsManagerSecret [VStr (lit "pw")] world0 =
    (Ret 0%nat,
     allocate AWSSecretsManagerSecret
       (<["boto3" := VModule_boto3]> {["secret_id" := VStr (lit "pw")]})
       world0) /\
  let wn :=
    value_times no_functions 1 3 0%nat
      (allocate AWSSecretsManagerSecret
         (<["boto3" := VModule_boto3]> {["secret_id" := VStr (lit "pw")]})
         world0) in
  clients wn = 1%nat /\
  initialised 0%nat (VStr (lit "pw")) wn (Some (VClient 0)) /\
  log wn =
    [Call_get_secret_value 0 (VStr (lit "pw")); Call_get_value 0%nat;
     Call_get_secret_value 0 (VStr (lit "pw")); Call_get_value 0%nat;
     Call_get_secret_value 0 (VStr (lit "pw")); Call_boto3_client 0;
     Call_get_value 0%nat].
Proof.
  assert (H : new AWSSecretsManagerSecret [VStr (lit "pw")] world0 =
    (Ret 0%nat,
     allocate AWSSecretsManagerSecret
       (<["boto3" := VModule_boto3]> {["secret_id" := VStr (lit "pw")]})
       world0)) by reflexivity.
  split; [exact H |].
  exact (proj2 (C8_client_is_lazy_and_memoized no_functions (VStr (lit "pw"))
                  0 2 world0 0%nat _ H)).
Defined.

(* ===================================================================== *)
(** ** Further properties *)
(* ===================================================================== *)

(* --------------------------------------------------------------------- *)
(** *** The base64 decoder on texts that are not canonical *)

(** A character that is neither in the alphabet nor [=] does not move the
    decoder. *)
Lemma a2b_base64_loop_skip c post :
  c <> BASE64_PAD -> 64 <= table_a2b_base64 c ->
  forall pre quad_pos leftchar pads bin_data,
    a2b_base64_loop (pre ++ c :: post) quad_pos leftchar pads bin_data =
    a2b_base64_loop (pre ++ post) quad_pos leftchar pads bin_data.
Proof.
  intros Hpad Hc. induction pre as [| x pre IH]; intros q l p acc.
  - cbn [app]. remember post as r. cbn [a2b_base64_loop].
    replace (c =? BASE64_PAD) with false by (symmetry; apply Z.eqb_neq, Hpad).
    replace (64 <=? table_a2b_base64 c) with true
      by (symmetry; apply Z.leb_le, Hc).
    reflexivity.
  - cbn [app a2b_base64_loop].
    repeat match goal with
      | |- context [if ?b then _ else _] => destruct b
      end; try reflexivity; apply IH.
Qed.

(** The encoder writes no [=] but as padding. *)
Lemma strip_padding_char i rest :
  0 <= i < 64 ->
  strip_padding (table_b2a_base64 i :: rest) =
  table_b2a_base64 i :: strip_padding rest.
Proof.
  intros H. unfold strip_padding. cbn [List.filter].
  rewrite table_b2a_base64_not_pad by assumption. reflexivity.
Qed.

Lemma a2b_base64_loop_stripped bs :
  Forall is_byte bs -> (length bs mod 3 <> 0)%nat ->
  forall bin_data,
    a2b_base64_loop (strip_padding (b64encode bs)) 0 0 0 bin_data =
    inl Incorrect_padding.
Proof.
  unfold is_byte.
  induction bs as [| a | a b | a b c bs IH] using list_ind3;
    intros Hbs Hlen acc.
  - contradiction Hlen. reflexivity.
  - apply Forall_cons in Hbs as [Ha _]. cbn [b64encode].
    rewrite !strip_padding_char by sextet.
    rewrite a2b_base64_loop_char_0, a2b_base64_loop_char_1 by sextet.
    reflexivity.
  - apply Forall_cons in Hbs as [Ha Hbs]. apply Forall_cons in Hbs as [Hb _].
    cbn [b64encode]. rewrite !strip_padding_char by sextet.
    rewrite a2b_base64_loop_char_0, a2b_base64_loop_char_1,
      a2b_base64_loop_char_2 by sextet.
    reflexivity.
  - apply Forall_cons in Hbs as [Ha Hbs]. apply Forall_cons in Hbs as [Hb Hbs].
    apply Forall_cons in Hbs as [Hc Hbs]. cbn [b64encode].
    rewrite !strip_padding_char by sextet.
    rewrite a2b_base64_loop_char_0, a2b_base64_loop_char_1,
      a2b_base64_loop_char_2, a2b_base64_loop_char_3 by sextet.
    apply IH; [exact Hbs |].
    intros H. apply Hlen. cbn [length].
    change (S (S (S (length bs)))) with (3 + length bs)%nat.
    rewrite <- Nat.Div0.add_mod_idemp_l. cbn. exact H.
Qed.

Lemma strip_padding_ascii s :
  forallb (in_range 0 127) s = true ->
  forallb (in_range 0 127) (strip_padding s) = true.
Proof.
  induction s as [| c s IH]; [reflexivity |].
  cbn [forallb strip_padding List.filter]. intros [Hc Hs]%andb_prop.
  destruct (negb _); [cbn [forallb]; rewrite Hc |]; apply IH, Hs.
Qed.

Section Further.

Variable call_function : nat -> pyval -> M pyval.
Variable object_repr : pyval -> str.

(* --------------------------------------------------------------------- *)
(** *** [BaseSecret.value] and [BaseSecret.__str__] *)

(** X1: [str(s)] is [s.value] in every case: the same [str] when the value
    is returned, the same exception when it is raised, and the same world
    after. *)
Theorem X1_str_agrees_with_value fuel self w :
  __str__ call_function object_repr fuel self w =
  value call_function fuel self w.
Proof.
  unfold __str__, bind.
  destruct (value call_function fuel self w) as [[v | e |] w'] eqn:H;
    try reflexivity.
  unfold value in H. rewrite bind_ret_r in H.
  pose proof (get_value_str call_function fuel self w v w' H) as Hstr.
  destruct v; try discriminate Hstr. reflexivity.
Qed.

(* --------------------------------------------------------------------- *)
(** *** [ChainedSecret.get_value] on the chains [__init__] builds *)

(** A chain whose [__dict__] has no [secret]: the access raises and only
    the log changes. *)
Lemma value_ChainedSecret_without_secret fuel c w o :
  heap w !! c = Some o -> ob_class o = ChainedSecret ->
  ob_dict o !! "secret" = None ->
  value call_function (S fuel) c w =
  (Raise (AttributeError "ChainedSecret" "secret"),
   set_log (Call_get_value c :: log w) w).
Proof.
  intros Ho Hc Hs. unfold value. rewrite bind_ret_r. cbn [get_value].
  erewrite bind_Ret by apply record_call_eq.
  erewrite bind_Ret by (apply deref_eq, Ho). rewrite Hc.
  unfold ChainedSecret_get_value.
  erewrite bind_Raise by (eapply load_attr_None; [apply Ho | apply Hs]).
  rewrite Hc. reflexivity.
Qed.

Lemma value_times_ChainedSecret_without_secret fuel c o n :
  ob_class o = ChainedSecret -> ob_dict o !! "secret" = None ->
  forall w,
    heap w !! c = Some o ->
    heap (value_times call_function (S fuel) n c w) = heap w /\
    environ (value_times call_function (S fuel) n c w) = environ w.
Proof.
  intros Hc Hs. induction n as [| n IH]; intros w Ho; [auto |].
  cbn [value_times].
  rewrite (value_ChainedSecret_without_secret fuel c w o Ho Hc Hs).
  cbn [snd]. apply (IH (set_log _ w) Ho).
Qed.

(** X2: a chain raises on every access to [value], not only on the first:
    after any number of accesses the instances and the environment are as
    [__init__] left them and the next access raises [AttributeError]
    again. *)
Theorem X2_chain_raises_on_every_access secrets fuel n w :
  exists c w1,
    new ChainedSecret secrets w = (Ret c, w1) /\
    let wn := value_times call_function (S fuel) n c w1 in
    heap wn = heap w1 /\ environ wn = environ w1 /\
    fst (value call_function (S fuel) c wn) =
      Raise (AttributeError "ChainedSecret" "secret").
Proof.
  eexists _, _. split; [apply new_ChainedSecret |]. cbn zeta.
  set (o := {| ob_class := ChainedSecret;
               ob_dict := {["secrets" := VTuple secrets]} |}).
  assert (Hs : ob_dict o !! "secret" = None)
    by (apply lookup_singleton_ne; discriminate).
  destruct (value_times_ChainedSecret_without_secret fuel (length (heap w))
              o n eq_refl Hs
              (allocate ChainedSecret {["secrets" := VTuple secrets]} w)
              (fresh_lookup (heap w) o)) as [Hh He].
  split; [exact Hh |]. split; [exact He |].
  rewrite (value_ChainedSecret_without_secret fuel _ _ o);
    [reflexivity | rewrite Hh; apply fresh_lookup | reflexivity | exact Hs].
Qed.

(** X3: the module's [password] cannot be read in any world: its value
    raises [AttributeError] whether [ADMIN_PASSWORD] is set or not, and
    the environment variable step is never asked (the log gains the call on
    the chain alone). *)
Theorem X3_password_value_raises fuel w :
  exists c w1,
    password w = (Ret c, w1) /\
    log w1 = log w /\ environ w1 = environ w /\
    value call_function (S fuel) c w1 =
      (Raise (AttributeError "ChainedSecret" "secret"),
       set_log (Call_get_value c :: log w) w1).
Proof.
  unfold password. eexists _, _. split.
  - erewrite bind_Ret by apply new_EnvironmentVariable.
    apply new_ChainedSecret.
  - split; [reflexivity |]. split; [reflexivity |].
    rewrite (value_ChainedSecret_without_secret fuel _ _
               {| ob_class := ChainedSecret;
                  ob_dict := {["secrets" :=
                    VTuple [VRef (length (heap w));
                            VClass Base64EncodedSecret]]} |});
      [reflexivity | apply fresh_lookup | reflexivity |].
    apply lookup_singleton_ne. discriminate.
Qed.

(* --------------------------------------------------------------------- *)
(** *** The body of [ChainedSecret.get_value] *)

Lemma bind_assoc {A B C} (m : M A) (k : A -> M B) (h : B -> M C) w :
  bind (bind m k) h w = bind m (fun a => bind (k a) h) w.
Proof. unfold bind. destruct (m w) as [[a | e |] w1]; reflexivity. Qed.

Lemma bind_ext {A B} (m : M A) (k k' : A -> M B) w :
  (forall a w1, k a w1 = k' a w1) -> bind m k w = bind m k' w.
Proof.
  intros H. unfold bind. destruct (m w) as [[a | e |] w1]; auto.
Qed.

Section Body.

Variable mgv : pyval -> M pyval.

(** X4: the loop over [l1 ++ l2] is the loop over [l1], then the loop over
    [l2] from the value and the world reached; so an exception raised
    within [l1] is the outcome, unchanged, and no step of [l2] runs. *)
Theorem X4_loop_composes l1 l2 value w :
  ChainedSecret_loop call_function mgv (l1 ++ l2) value w =
    (let! value1 := ChainedSecret_loop call_function mgv l1 value in
     ChainedSecret_loop call_function mgv l2 value1) w /\
  (forall e w1,
     ChainedSecret_loop call_function mgv l1 value w = (Raise e, w1) ->
     ChainedSecret_loop call_function mgv (l1 ++ l2) value w = (Raise e, w1)).
Proof.
  assert (H : forall l1 value w,
             ChainedSecret_loop call_function mgv (l1 ++ l2) value w =
             (let! value1 := ChainedSecret_loop call_function mgv l1 value in
              ChainedSecret_loop call_function mgv l2 value1) w).
  { clear. induction l1 as [| secret l1 IH]; intros value w; [reflexivity |].
    cbn [app ChainedSecret_loop].
    destruct (isinstance_BaseSecret secret); [| destruct (callable secret)].
    - rewrite bind_assoc. apply bind_ext. intros v w1. apply IH.
    - rewrite bind_assoc. apply bind_ext. intros v w1.
      rewrite bind_assoc. apply bind_ext. intros s' w2.
      rewrite bind_assoc. apply bind_ext. intros v' w3. apply IH.
    - apply IH. }
  split; [apply H |].
  intros e w1 Hl1. rewrite H. apply (bind_Raise _ _ _ _ _ Hl1).
Qed.

(** Steps the loop does nothing with can be dropped from the front. *)
Lemma ChainedSecret_loop_idle pre post value w :
  forallb (fun secret => negb (runs secret)) pre = true ->
  ChainedSecret_loop call_function mgv (pre ++ post) value w =
  ChainedSecret_loop call_function mgv post value w.
Proof.
  induction pre as [| secret pre IH]; [reflexivity |].
  cbn [forallb]. intros [Hs Hpre]%andb_prop.
  apply negb_true_iff in Hs. unfold runs in Hs.
  apply orb_false_iff in Hs as [Hi Hc].
  cbn [app ChainedSecret_loop]. rewrite Hi, Hc. apply IH, Hpre.
Qed.

(** X5: after the first step only instances and callables count: every
    other step (a [str], [None], a number, [bytes], a tuple) is passed over
    wherever it stands, and the chain resolves as the chain without
    them. *)
Theorem X5_only_instances_and_callables_count first rest w :
  ChainedSecret_resolve call_function mgv (first :: rest) w =
  ChainedSecret_resolve call_function mgv (first :: List.filter runs rest) w.
Proof.
  assert (H : forall rest value w,
             ChainedSecret_loop call_function mgv rest value w =
             ChainedSecret_loop call_function mgv (List.filter runs rest)
               value w).
  { clear. induction rest as [| secret rest IH]; intros value w;
      [reflexivity |].
    cbn [List.filter]. unfold runs at 1.
    destruct (isinstance_BaseSecret secret) eqn:Hi;
      [| destruct (callable secret) eqn:Hc];
      cbn [orb ChainedSecret_loop]; rewrite ?Hi, ?Hc.
    - unfold bind. destruct (mgv secret w) as [[v | e |] w1]; auto.
    - unfold bind.
      destruct (load_local "value" value w) as [[v | e |] w1]; auto.
      destruct (call call_function secret v w1) as [[s' | e |] w2]; auto.
      destruct (mgv s' w2) as [[v' | e |] w3]; auto.
    - apply IH. }
  unfold ChainedSecret_resolve, bind.
  destruct (_ w) as [[value | e |] w1]; [| reflexivity ..].
  rewrite H. reflexivity.
Qed.

(** X6: a first step that is neither an instance nor a [str] (a class, a
    function, [None]) leaves [value] unassigned: if no instance step
    assigns it, the chain raises [UnboundLocalError], at the [return] or at
    the first callable step, which is not called. *)
Theorem X6_unassigned_value first idle f post w :
  isinstance_BaseSecret first = false -> isinstance_str first = false ->
  forallb (fun secret => negb (runs secret)) idle = true ->
  callable f = true ->
  ChainedSecret_resolve call_function mgv (first :: idle) w =
    (Raise (UnboundLocalError "value"), w) /\
  ChainedSecret_resolve call_function mgv (first :: idle ++ f :: post) w =
    (Raise (UnboundLocalError "value"), w).
Proof.
  intros Hi Hs Hidle Hf. unfold ChainedSecret_resolve. rewrite Hi, Hs.
  assert (Hf' : isinstance_BaseSecret f = false)
    by (destruct f; try reflexivity; discriminate Hf).
  split.
  - erewrite bind_Ret by reflexivity.
    erewrite bind_Ret
      by (rewrite <- (app_nil_r idle);
          rewrite ChainedSecret_loop_idle by exact Hidle; reflexivity).
    reflexivity.
  - erewrite bind_Ret by reflexivity.
    erewrite bind_Raise
      by (rewrite ChainedSecret_loop_idle by exact Hidle;
          cbn [ChainedSecret_loop]; rewrite Hf', Hf; reflexivity).
    reflexivity.
Qed.

End Body.

(* --------------------------------------------------------------------- *)
(** *** [EnvironmentVariable] on any instance *)

Lemma get_value_EnvironmentVariable fuel a w o name :
  heap w !! a = Some o -> ob_class o = EnvironmentVariable ->
  ob_dict o !! "name" = Some (VStr name) ->
  get_value call_function (S fuel) a w =
  (match os_fsencode name with
   | None => Raise UnicodeEncodeError
   | Some _ =>
       match environ w !! name with
       | Some v => Ret (VStr v)
       | None => Raise (Undefined (VStr name))
       end
   end, set_log (Call_get_value a :: log w) w).
Proof.
  intros Ho Hc Hn. cbn [get_value].
  erewrite bind_Ret by apply record_call_eq.
  erewrite bind_Ret by (apply deref_eq, Ho). rewrite Hc.
  unfold EnvironmentVariable_get_value.
  erewrite bind_Ret by (eapply load_attr_Some; [apply Ho | apply Hn]).
  destruct (os_fsencode name) as [key |] eqn:Hkey.
  - erewrite bind_Ret by (apply os_getenv_encodable; rewrite Hkey; eauto).
    cbn [environ set_log].
    destruct (environ w !! name) as [v |]; [reflexivity |].
    erewrite bind_Ret by (eapply load_attr_Some; [apply Ho | apply Hn]).
    reflexivity.
  - erewrite bind_Raise by (apply os_getenv_unencodable, Hkey). reflexivity.
Qed.

(** X7: an [EnvironmentVariable] keeps nothing between accesses: on any
    instance, at any time, [value] is what the environment holds for its
    name at that moment, [Undefined] when it holds nothing for it, and
    [UnicodeEncodeError] when the name cannot be encoded for the operating
    system; the access changes nothing but the log of calls. *)
Theorem X7_EnvironmentVariable_reads_the_environment fuel a w o N :
  heap w !! a = Some o -> ob_class o = EnvironmentVariable ->
  ob_dict o !! "name" = Some (VStr N) ->
  value call_function (S fuel) a w =
  (match os_fsencode N with
   | None => Raise UnicodeEncodeError
   | Some _ =>
       match environ w !! N with
       | Some v => Ret (VStr v)
       | None => Raise (Undefined (VStr N))
       end
   end, set_log (Call_get_value a :: log w) w).
Proof.
  intros Ho Hc Hn. unfold value. rewrite bind_ret_r.
  apply (get_value_EnvironmentVariable fuel a w o N Ho Hc Hn).
Qed.

(** X8: the body of [ChainedSecret.get_value] on the steps of [password],
    an [EnvironmentVariable] instance then the class [Base64EncodedSecret]:
    when the variable holds the base64 text of [s], the steps resolve to
    [s]. *)
Theorem X8_environment_then_base64_resolves fuel a w o N (s enc : str) :
  heap w !! a = Some o -> ob_class o = EnvironmentVariable ->
  ob_dict o !! "name" = Some (VStr N) ->
  base64_encode s = Some enc -> environ w !! N = Some enc ->
  fst (ChainedSecret_resolve call_function
         (method_get_value (get_value call_function (S fuel)))
         [VRef a; VClass Base64EncodedSecret] w) =
  Ret (VStr s).
Proof.
  intros Ho Hc Hn Henc Henv.
  unfold base64_encode in Henc.
  destruct (utf8_encode s) as [bs |] eqn:Hbs; [| discriminate Henc].
  injection Henc as <-.
  pose proof (get_value_EnvironmentVariable fuel a w o N Ho Hc Hn) as Ha.
  destruct (environ_lookup_encodable _ _ _ Henv) as [key Hkey].
  rewrite Hkey, Henv in Ha.
  unfold ChainedSecret_resolve. cbn [isinstance_BaseSecret].
  erewrite bind_Ret
    by (erewrite bind_Ret by (cbn [method_get_value]; exact Ha);
        reflexivity).
  set (w1 := set_log (Call_get_value a :: log w) w) in *.
  pose proof (get_value_fresh_Base64EncodedSecret call_function s bs fuel w1
                Hbs) as Hb.
  destruct (get_value call_function (S fuel) (length (heap w1)) _)
    as [r w2] eqn:Hg.
  cbn [fst] in Hb. subst r.
  erewrite bind_Ret.
  2:{ cbn [ChainedSecret_loop isinstance_BaseSecret callable].
      erewrite bind_Ret by reflexivity.
      erewrite bind_Ret
        by (unfold call; erewrite bind_Ret by apply new_Base64EncodedSecret;
            reflexivity).
      erewrite bind_Ret by (cbn [method_get_value]; exact Hg).
      reflexivity. }
  reflexivity.
Qed.

(* --------------------------------------------------------------------- *)
(** *** [FileSystemSecret] *)

(** X9: [FileSystemSecret(path).value] is the text that opening and
    reading [path] gives, and when that raises, the exception it raises,
    as it is. *)
Theorem X9_FileSystemSecret_value path fuel w :
  fst ((let! secret := new FileSystemSecret [path] in
        value call_function (S fuel) secret) w) =
  match open_read w path with
  | inr text => Ret (VStr text)
  | inl e => Raise e
  end.
Proof.
  erewrite bind_Ret by apply new_FileSystemSecret.
  unfold value. rewrite bind_ret_r. cbn [get_value].
  erewrite bind_Ret by apply record_call_eq.
  erewrite bind_Ret by (apply deref_eq, fresh_lookup). cbn [ob_class].
  unfold FileSystemSecret_get_value.
  erewrite bind_Ret
    by (eapply load_attr_Some; [apply fresh_lookup | apply lookup_singleton_eq]).
  unfold open_and_read. cbn [open_read set_log allocate set_heap].
  destruct (open_read w path); reflexivity.
Qed.

(* --------------------------------------------------------------------- *)
(** *** [AWSSecretsManagerSecret] *)

(** What the collaborator's answer becomes. *)
Lemma fst_get_secret_string client_handle secret_id w :
  fst ((let! response :=
          client_get_secret_value (VClient client_handle) secret_id in
        subscript_SecretString response) w) =
  match secretsmanager w secret_id with
  | inl e => Raise e
  | inr None => Raise KeyError
  | inr (Some text) => Ret (VStr text)
  end.
Proof.
  unfold bind, client_get_secret_value.
  destruct (secretsmanager w secret_id) as [e | [text |]]; reflexivity.
Qed.

Lemma fst_value_without_client self secret_id fuel w :
  initialised self secret_id w None ->
  fst (value call_function (S fuel) self w) =
  match boto3_client w with
  | Some e => Raise e
  | None =>
      match secretsmanager w secret_id with
      | inl e => Raise e
      | inr None => Raise KeyError
      | inr (Some text) => Ret (VStr text)
      end
  end.
Proof.
  intros (o & Ho & Hc & Hid & Hb & Hcl).
  unfold value. rewrite bind_ret_r. cbn [get_value].
  erewrite bind_Ret by apply record_call_eq.
  erewrite bind_Ret by (apply deref_eq, Ho). rewrite Hc.
  unfold AWSSecretsManagerSecret_get_value.
  destruct (boto3_client w) as [e |] eqn:Hboto.
  - erewrite bind_Raise; [reflexivity |].
    unfold AWSSecretsManagerSecret_client.
    erewrite bind_Ret by (apply deref_eq, Ho). rewrite Hcl.
    erewrite bind_Raise; [reflexivity |].
    unfold AWSSecretsManagerSecret_get_client.
    erewrite bind_Ret by (eapply load_attr_Some; [apply Ho | apply Hb]).
    unfold boto3_client_call. cbn [boto3_client set_log].
    rewrite Hboto. reflexivity.
  - erewrite bind_Ret.
    2:{ unfold AWSSecretsManagerSecret_client.
        erewrite bind_Ret by (apply deref_eq, Ho). rewrite Hcl.
        erewrite bind_Ret.
        2:{ unfold AWSSecretsManagerSecret_get_client.
            erewrite bind_Ret
              by (eapply load_attr_Some; [apply Ho | apply Hb]).
            unfold boto3_client_call. cbn [boto3_client set_log].
            rewrite Hboto. reflexivity. }
        erewrite bind_Ret by (apply store_attr_eq, Ho). reflexivity. }
    erewrite bind_Ret.
    2:{ eapply load_attr_Some.
        - cbn [heap set_heap set_log set_clients].
          apply list_lookup_insert_eq. eapply lookup_lt_Some, Ho.
        - cbn [with_attr ob_dict]. rewrite lookup_insert_ne by discriminate.
          exact Hid. }
    rewrite fst_get_secret_string. reflexivity.
Qed.

Lemma initialised_fresh secret_id w :
  initialised (length (heap w)) secret_id
    (allocate AWSSecretsManagerSecret
       (<["boto3" := VModule_boto3]> {["secret_id" := secret_id]}) w)
    None.
Proof.
  eexists. split; [apply fresh_lookup |]. cbn [ob_class ob_dict].
  rewrite lookup_insert_eq, !lookup_insert_ne by discriminate.
  rewrite lookup_singleton_eq, lookup_singleton_ne by discriminate. auto.
Qed.

(** X10: [AWSSecretsManagerSecret(secret_id).value]: the constructor
    raises [ModuleNotFoundError] when [boto3] cannot be imported; otherwise
    the access raises what [boto3.client] raises, or what
    [get_secret_value] raises, or [KeyError] when the response has no
    ["SecretString"], and returns the ["SecretString"] otherwise. *)
Theorem X10_AWSSecretsManagerSecret_value secret_id fuel w :
  fst ((let! secret := new AWSSecretsManagerSecret [secret_id] in
        value call_function (S fuel) secret) w) =
  if boto3_installed w then
    match boto3_client w with
    | Some e => Raise e
    | None =>
        match secretsmanager w secret_id with
        | inl e => Raise e
        | inr None => Raise KeyError
        | inr (Some text) => Ret (VStr text)
        end
    end
  else Raise ModuleNotFoundError.
Proof.
  unfold bind at 1. rewrite new_AWSSecretsManagerSecret.
  destruct (boto3_installed w); [| reflexivity].
  apply (fst_value_without_client _ secret_id fuel _
           (initialised_fresh secret_id w)).
Qed.

(** The first access of one provider, when [boto3.client] answers: its
    client is made and kept, and the other providers are as they were. *)
Lemma value_makes_own_client self secret_id fuel w :
  initialised self secret_id w None -> boto3_client w = None ->
  let w' := snd (value call_function (S fuel) self w) in
  initialised self secret_id w' (Some (VClient (clients w))) /\
  clients w' = S (clients w) /\ boto3_client w' = None /\
  (forall other secret_id' client,
     other <> self -> initialised other secret_id' w client ->
     initialised other secret_id' w' client).
Proof.
  intros Hinit Hboto. cbn zeta.
  destruct (value_client_made call_function self secret_id fuel w Hinit Hboto)
    as (o & Ho & ->).
  destruct Hinit as (o' & Ho' & Hc & Hid & Hb & _).
  assert (o' = o) as -> by congruence.
  split; [| split; [reflexivity | split; [exact Hboto |]]].
  - exists (with_attr "client" (VClient (clients w)) o).
    cbn [heap set_log set_heap set_clients with_attr ob_class ob_dict].
    split; [apply list_lookup_insert_eq; eapply lookup_lt_Some, Ho |].
    rewrite !lookup_insert_ne by discriminate.
    rewrite lookup_insert_eq. auto.
  - intros other sid' client Hne (oo & Hoo & Hrest). exists oo.
    split; [| exact Hrest].
    cbn [heap set_log set_heap set_clients].
    rewrite list_lookup_insert_ne by congruence. exact Hoo.
Qed.

(** X11: the client belongs to the instance, not to the class or the
    process: two providers, each read once, hold two different handles, and
    two clients have been made. *)
Theorem X11_one_client_per_instance id_a id_b fuel w :
  boto3_installed w = true -> boto3_client w = None ->
  exists a b w2,
    (let! a := new AWSSecretsManagerSecret [id_a] in
     let! b := new AWSSecretsManagerSecret [id_b] in
     ret (a, b)) w = (Ret (a, b), w2) /\
    let w3 := snd (value call_function (S fuel) a w2) in
    let w4 := snd (value call_function (S fuel) b w3) in
    initialised a id_a w4 (Some (VClient (clients w))) /\
    initialised b id_b w4 (Some (VClient (S (clients w)))) /\
    clients w4 = S (S (clients w)).
Proof.
  intros Hinst Hboto.
  set (w1 := allocate AWSSecretsManagerSecret
               (<["boto3" := VModule_boto3]> {["secret_id" := id_a]}) w).
  set (w2 := allocate AWSSecretsManagerSecret
               (<["boto3" := VModule_boto3]> {["secret_id" := id_b]}) w1).
  exists (length (heap w)), (length (heap w1)), w2. split.
  { erewrite bind_Ret
      by (rewrite new_AWSSecretsManagerSecret, Hinst; reflexivity).
    erewrite bind_Ret
      by (rewrite new_AWSSecretsManagerSecret; fold w1;
          change (boto3_installed w1) with (boto3_installed w);
          rewrite Hinst; reflexivity).
    reflexivity. }
  cbn zeta.
  assert (Hne : length (heap w1) <> length (heap w)).
  { unfold w1, allocate. cbn [heap set_heap]. rewrite length_app.
    cbn [length]. lia. }
  assert (Ha : initialised (length (heap w)) id_a w2 None).
  { destruct (initialised_fresh id_a w) as (o & Ho & Hrest). exists o.
    split; [| exact Hrest]. unfold w2, allocate at 1. cbn [heap set_heap].
    apply lookup_app_l_Some. exact Ho. }
  assert (Hb : initialised (length (heap w1)) id_b w2 None)
    by apply initialised_fresh.
  destruct (value_makes_own_client _ id_a fuel w2 Ha Hboto)
    as (Ha3 & Hc3 & Hboto3 & Hframe3).
  apply (Hframe3 _ _ _ Hne) in Hb.
  destruct (value_makes_own_client _ id_b fuel _ Hb Hboto3)
    as (Hb4 & Hc4 & _ & Hframe4).
  rewrite Hc3 in Hb4. change (clients w2) with (clients w) in *.
  split; [apply Hframe4; [congruence | exact Ha3] |].
  split; [exact Hb4 |]. rewrite Hc4, Hc3. reflexivity.
Qed.

Lemma secret_fetches_cached self secret_id fuel h n :
  forall w,
    initialised self secret_id w (Some (VClient h)) ->
    secret_fetches (log (value_times call_function (S fuel) n self w)) =
    (n + secret_fetches (log w))%nat.
Proof.
  induction n as [| n IH]; intros w Hinit; [reflexivity |].
  cbn [value_times].
  rewrite (value_client_cached call_function self secret_id fuel w h Hinit).
  rewrite IH by (revert Hinit; apply initialised_heap; reflexivity).
  cbn [log set_log]. unfold secret_fetches. cbn [List.filter length]. lia.
Qed.

(** X15: the secret itself is never kept: with a working collaborator,
    [n] accesses to [value] make [n] calls to [get_secret_value]. *)
Theorem X15_secret_is_fetched_on_every_access secret_id fuel n w :
  boto3_installed w = true -> boto3_client w = None ->
  exists self w1,
    new AWSSecretsManagerSecret [secret_id] w = (Ret self, w1) /\
    secret_fetches (log (value_times call_function (S fuel) n self w1)) =
    (n + secret_fetches (log w))%nat.
Proof.
  intros Hinst Hboto. eexists _, _.
  split; [rewrite new_AWSSecretsManagerSecret, Hinst; reflexivity |].
  destruct n as [| n]; [reflexivity |]. cbn [value_times].
  pose proof (initialised_fresh secret_id w) as Hinit.
  destruct (value_makes_own_client _ secret_id fuel _ Hinit Hboto)
    as (Hinit' & _).
  rewrite (secret_fetches_cached _ secret_id fuel _ n _ Hinit').
  destruct (value_client_made call_function _ secret_id fuel _ Hinit Hboto)
    as (o & _ & ->).
  cbn [log set_log set_heap set_clients allocate].
  unfold secret_fetches. cbn [List.filter length]. lia.
Qed.

(* --------------------------------------------------------------------- *)
(** *** [Base64EncodedSecret] on texts that are not canonical *)

Lemma fst_value_Base64EncodedSecret_str (s : str) fuel w :
  fst ((let! secret := new Base64EncodedSecret [VStr s] in
        value call_function (S fuel) secret) w) =
  if forallb (in_range 0 127) s then
    match a2b_base64 s with
    | inl e => Raise (binascii_Error e)
    | inr b =>
        match utf8_decode b with
        | Some text => Ret (VStr text)
        | None => Raise UnicodeDecodeError
        end
    end
  else Raise ValueError.
Proof.
  erewrite bind_Ret by apply new_Base64EncodedSecret.
  unfold value. rewrite bind_ret_r. cbn [get_value].
  erewrite bind_Ret by apply record_call_eq.
  erewrite bind_Ret by (apply deref_eq, fresh_lookup). cbn [ob_class].
  unfold Base64EncodedSecret_get_value.
  erewrite bind_Ret
    by (eapply load_attr_Some; [apply fresh_lookup | apply lookup_singleton_eq]).
  unfold bind, base64_b64decode.
  destruct (forallb (in_range 0 127) s); [| reflexivity].
  destruct (a2b_base64 s) as [e | b]; [reflexivity |].
  unfold ret. cbn [isinstance_bytes bytes_decode].
  destruct (utf8_decode b); reflexivity.
Qed.

(** X12: the text is decoded leniently: an ASCII character outside the
    base64 alphabet (a line break, a space) changes nothing to the value,
    wherever it stands in the text. *)
Theorem X12_foreign_characters_are_ignored c (head tail : str) fuel w :
  in_range 0 127 c = true -> c <> BASE64_PAD -> 64 <= table_a2b_base64 c ->
  fst ((let! secret := new Base64EncodedSecret [VStr (head ++ c :: tail)] in
        value call_function (S fuel) secret) w) =
  fst ((let! secret := new Base64EncodedSecret [VStr (head ++ tail)] in
        value call_function (S fuel) secret) w).
Proof.
  intros Hascii Hpad Hc. rewrite !fst_value_Base64EncodedSecret_str.
  rewrite !forallb_app. cbn [forallb]. rewrite Hascii. cbn [andb].
  unfold a2b_base64. rewrite (a2b_base64_loop_skip c tail Hpad Hc).
  reflexivity.
Qed.

(** X13: padding is required: the base64 text of a number of bytes that is
    not a multiple of three, once its [=] are removed, is refused with
    [binascii.Error] (incorrect padding). *)
Theorem X13_missing_padding_is_refused (bs : bytes) fuel w :
  Forall is_byte bs -> (length bs mod 3 <> 0)%nat ->
  fst ((let! secret :=
          new Base64EncodedSecret [VStr (strip_padding (b64encode bs))] in
        value call_function (S fuel) secret) w) =
  Raise (binascii_Error Incorrect_padding).
Proof.
  intros Hbs Hlen. rewrite fst_value_Base64EncodedSecret_str.
  rewrite (strip_padding_ascii _ (b64encode_ascii bs Hbs)).
  unfold a2b_base64. rewrite (a2b_base64_loop_stripped bs Hbs Hlen).
  reflexivity.
Qed.

(** X14: a text with a character that is not ASCII is refused with
    [ValueError], whatever the rest of the text is. *)
Theorem X14_non_ascii_text_is_refused c (head tail : str) fuel w :
  in_range 0 127 c = false ->
  fst ((let! secret := new Base64EncodedSecret [VStr (head ++ c :: tail)] in
        value call_function (S fuel) secret) w) =
  Raise ValueError.
Proof.
  intros Hc. rewrite fst_value_Base64EncodedSecret_str.
  rewrite forallb_app. cbn [forallb]. rewrite Hc.
  rewrite andb_false_r. reflexivity.
Qed.

End Further.

Lemma X6_witness :
  isinstance_BaseSecret (VClass Base64EncodedSecret) = false /\
  isinstance_str (VClass Base64EncodedSecret) = false /\
  forallb (fun secret => negb (runs secret)) [VNone; VStr (lit "x")] = true /\
  callable (VFunc 0) = true /\
  ChainedSecret_resolve no_functions
    (method_get_value (get_value no_functions 1))
    [VClass Base64EncodedSecret; VNone; VStr (lit "x")] world0 =
    (Raise (UnboundLocalError "value"), world0) /\
  ChainedSecret_resolve no_functions
    (method_get_value (get_value no_functions 1))
    (VClass Base64EncodedSecret
     :: [VNone; VStr (lit "x")] ++ VFunc 0 :: [VStr (lit "y")]) world0 =
    (Raise (UnboundLocalError "value"), world0).
Proof.
  do 4 (split; [reflexivity |]).
  exact (X6_unassigned_value no_functions
           (method_get_value (get_value no_functions 1))
           (VClass Base64EncodedSecret) [VNone; VStr (lit "x")] (VFunc 0)
           [VStr (lit "y")] world0 eq_refl eq_refl eq_refl eq_refl).
Defined.

Lemma X7_witness :
  heap (allocate EnvironmentVariable {["name" := VStr (lit "HOME")]} world0)
    !! 0%nat =
    Some {| ob_class := EnvironmentVariable;
            ob_dict := {["name" := VStr (lit "HOME")]} |} /\
  value no_functions 1 0%nat
    (allocate EnvironmentVariable {["name" := VStr (lit "HOME")]} world0) =
  (Raise (Undefined (VStr (lit "HOME"))),
   set_log [Call_get_value 0%nat]
     (allocate EnvironmentVariable {["name" := VStr (lit "HOME")]} world0)).
Proof.
  split; [reflexivity |].
  exact (X7_EnvironmentVariable_reads_the_environment no_functions 0 0%nat
           (allocate EnvironmentVariable {["name" := VStr (lit "HOME")]}
              world0)
           _ (lit "HOME") eq_refl eq_refl eq_refl).
Defined.

Lemma X8_witness :
  base64_encode (lit "s3cr3t") = Some (lit "czNjcjN0") /\
  environ world0 !! lit "ADMIN_PASSWORD" = Some (lit "czNjcjN0") /\
  fst (ChainedSecret_resolve no_functions
         (method_get_value (get_value no_functions 1))
         [VRef 0%nat; VClass Base64EncodedSecret]
         (allocate EnvironmentVariable
            {["name" := VStr (lit "ADMIN_PASSWORD")]} world0)) =
  Ret (VStr (lit "s3cr3t")).
Proof.
  assert (H1 : base64_encode (lit "s3cr3t") = Some (lit "czNjcjN0"))
    by reflexivity.
  assert (H2 : environ world0 !! lit "ADMIN_PASSWORD" =
               Some (lit "czNjcjN0")) by reflexivity.
  split; [exact H1 |]. split; [exact H2 |].
  exact (X8_environment_then_base64_resolves no_functions 0 0%nat
           (allocate EnvironmentVariable
              {["name" := VStr (lit "ADMIN_PASSWORD")]} world0)
           _ (lit "ADMIN_PASSWORD") (lit "s3cr3t") (lit "czNjcjN0")
           eq_refl eq_refl eq_refl H1 H2).
Defined.

Lemma X11_witness :
  boto3_installed world0 = true /\ boto3_client world0 = None /\
  exists a b w2,
    (let! a := new AWSSecretsManagerSecret [VStr (lit "pw")] in
     let! b := new AWSSecretsManagerSecret [VStr (lit "db")] in
     ret (a, b)) world0 = (Ret (a, b), w2) /\
    let w3 := snd (value no_functions 1 a w2) in
    let w4 := snd (value no_functions 1 b w3) in
    initialised a (VStr (lit "pw")) w4 (Some (VClient (clients world0))) /\
    initialised b (VStr (lit "db")) w4
      (Some (VClient (S (clients world0)))) /\
    clients w4 = S (S (clients world0)).
Proof.
  split; [reflexivity |]. split; [reflexivity |].
  exact (X11_one_client_per_instance no_functions (VStr (lit "pw"))
           (VStr (lit "db")) 0 world0 eq_refl eq_refl).
Defined.

Lemma X12_witness :
  in_range 0 127 10 = true /\ 10 <> BASE64_PAD /\
  64 <= table_a2b_base64 10 /\
  fst ((let! secret :=
          new Base64EncodedSecret [VStr (lit "czNj" ++ 10 :: lit "cjN0")] in
        value no_functions 1 secret) world0) =
  fst ((let! secret :=
          new Base64EncodedSecret [VStr (lit "czNj" ++ lit "cjN0")] in
        value no_functions 1 secret) world0).
Proof.
  assert (H1 : in_range 0 127 10 = true) by reflexivity.
  assert (H2 : 10 <> BASE64_PAD) by discriminate.
  assert (H3 : 64 <= table_a2b_base64 10) by (vm_compute; discriminate).
  do 3 (split; [assumption |]).
  exact (X12_foreign_characters_are_ignored no_functions 10 (lit "czNj")
           (lit "cjN0") 0 world0 H1 H2 H3).
Defined.

Lemma X13_witness :
  Forall is_byte (lit "pw") /\ (length (lit "pw") mod 3 <> 0)%nat /\
  fst ((let! secret :=
          new Base64EncodedSecret
            [VStr (strip_padding (b64encode (lit "pw")))] in
        value no_functions 1 secret) world0) =
  Raise (binascii_Error Incorrect_padding).
Proof.
  assert (H1 : Forall is_byte (lit "pw"))
    by (repeat constructor; unfold is_byte; cbn; lia).
  assert (H2 : (length (lit "pw") mod 3 <> 0)%nat) by (cbn; discriminate).
  split; [exact H1 |]. split; [exact H2 |].
  exact (X13_missing_padding_is_refused no_functions (lit "pw") 0 world0
           H1 H2).
Defined.

Lemma X14_witness :
  in_range 0 127 233 = false /\
  fst ((let! secret :=
          new Base64EncodedSecret [VStr (lit "cz" ++ 233 :: lit "Nj")] in
        value no_functions 1 secret) world0) =
  Raise ValueError.
Proof.
  split; [reflexivity |].
  exact (X14_non_ascii_text_is_refused no_functions 233 (lit "cz")
           (lit "Nj") 0 world0 eq_refl).
Defined.

Lemma X15_witness :
  boto3_installed world0 = true /\ boto3_client world0 = None /\
  exists self w1,
    new AWSSecretsManagerSecret [VStr (lit "pw")] world0 = (Ret self, w1) /\
    secret_fetches (log (value_times no_functions 1 3 self w1)) =
    (3 + secret_fetches (log world0))%nat.
Proof.
  split; [reflexivity |]. split; [reflexivity |].
  exact (X15_secret_is_fetched_on_every_access no_functions
           (VStr (lit "pw")) 0 3 world0 eq_refl eq_refl).
Defined.
